(** * makeReal: turning a canvas selection into a generated HTML artifact

    A shallow embedding of [src/app/makeReal.tsx] and the properties its
    specification states about it.

    Conventions of the embedding.
    - A JavaScript string is a [string]; one character of the model stands
      for one UTF-16 code unit, which is the unit in which [indexOf],
      [slice] and [length] count.
    - A JavaScript number that is a coordinate or a request parameter is a
      binary64 [float]; string positions are integers and live in [Z]
      (with [-1] for "not found", as [indexOf] returns it).
    - [null] is [None].
    - The editor is an explicit state (shape store and selection); the
      collaborators that are not part of this file (rasterisation, selection
      geometry, shape hierarchy, identifier allocation, the key input of the
      page and the remote endpoint) are the fields of a [Host] record.
    - [async]/[await] is sequential composition: one invocation is a single
      logical flow and nothing else touches the canvas while it runs. *)

From Stdlib Require Import ZArith Lia Ascii String Floats.PrimFloat.
From stdpp Require Import gmap strings list.

Local Open Scope Z_scope.
Local Open Scope string_scope.

(** ** JavaScript string primitives *)

Module Js.

(** The line feed, written ['\n'] in the source. *)
Definition newline : string := String "010"%char EmptyString.

(** [s.indexOf(needle)]: position of the first occurrence, [-1] if none. *)
Definition indexOf (s needle : string) : Z :=
  match String.index 0 needle s with
  | Some n => Z.of_nat n
  | None => -1
  end.

(** Relative-index resolution shared by both arguments of [slice]:
    a negative index counts from the end, and the result is clamped to
    [0 .. len]. *)
Definition relativeIndex (len i : Z) : Z :=
  if (i <? 0)%Z then Z.max (len + i) 0 else Z.min i len.

(** [s.slice(start, end)]. *)
Definition slice (s : string) (start end_ : Z) : string :=
  let len := Z.of_nat (String.length s) in
  let from := relativeIndex len start in
  let to := relativeIndex len end_ in
  if (to <=? from)%Z then ""
  else String.substring (Z.to_nat from) (Z.to_nat (to - from)) s.

(** [parts.join(sep)] on an array of type [(string | null)[]]: a [null]
    element is rendered as the empty string. *)
Definition join (sep : string) (parts : list (option string)) : string :=
  String.concat sep (map (default "") parts).

(** Truthiness of a value of type [string | null]. *)
Definition truthy (v : option string) : bool :=
  match v with
  | Some s => negb (String.eqb s "")
  | None => false
  end.



End Js.

(** ** Response extraction (lines 112-115 of the source) *)

Definition DOCTYPE : string := "<!DOCTYPE html>".
Definition CLOSING_TAG : string := "</html>".

(** [const start = message.indexOf('<!DOCTYPE html>')
     const end = message.indexOf('</html>')
     const html = message.slice(start, end + '</html>'.length)] *)
Definition extractHtml (message : string) : string :=
  let start := Js.indexOf message DOCTYPE in
  let end_ := Js.indexOf message CLOSING_TAG in
  Js.slice message start (end_ + Z.of_nat (String.length CLOSING_TAG)).

(** The extraction as the specification words it: the first doctype marker,
    then the first closing tag at or after that position, and the substring
    from the one through the other.  [None] when a marker is missing. *)
Definition extractHtml_spec (message : string) : option string :=
  match String.index 0 DOCTYPE message with
  | None => None
  | Some start =>
      match String.index start CLOSING_TAG message with
      | None => None
      | Some end_ =>
          Some (String.substring start
                  (end_ + String.length CLOSING_TAG - start) message)
      end
  end.




(** ** The canvas: shapes, the editor state and its mutations *)

Abbreviation TLShapeId := string (only parsing).

(** The two properties of a shape this program reads: [props.text] on the
    kinds that carry a label and [props.html] on a response shape.  The
    shape types make each a string on the kinds where it is read. *)
Record ShapeProps := {
  text : string;
  html : string
}.

Record TLShape := {
  shape_id : TLShapeId;
  shape_type : string;
  shape_x : float;
  shape_y : float;
  props : ShapeProps
}.

(** Selection page bounds, with the fields the specification lists. *)
Record Box := {
  box_x : float;
  box_y : float;
  maxX : float;
  maxY : float
}.

(** The argument of [createShape] and [updateShape]: identifier and kind,
    and whichever of position and [props.html] the caller supplies. *)
Record TLShapePartial := {
  partial_id : TLShapeId;
  partial_type : string;
  partial_x : option float;
  partial_y : option float;
  partial_html : option string
}.

Record Editor := {
  store : gmap string TLShape;
  selectedShapeIds : list TLShapeId
}.

Definition getShape (editor : Editor) (id : TLShapeId) : option TLShape :=
  store editor !! id.

Definition getSelectedShapeIds (editor : Editor) : list TLShapeId :=
  selectedShapeIds editor.

(** The selected shapes: the selected identifiers that resolve to a shape,
    in selection order. *)
Definition getSelectedShapes (editor : Editor) : list TLShape :=
  omap (getShape editor) (selectedShapeIds editor).

(** Modelled from the spec: the response shape declared in
    [./ResponseShape/ResponseShape], a shape of kind "response" whose single
    attribute is an HTML string, created empty. *)
Definition defaultProps : ShapeProps := {| text := ""; html := "" |}.

Definition createdShape (partial : TLShapePartial) : TLShape :=
  {| shape_id := partial_id partial;
     shape_type := partial_type partial;
     shape_x := default 0%float (partial_x partial);
     shape_y := default 0%float (partial_y partial);
     props := {| text := text defaultProps;
                 html := default (html defaultProps) (partial_html partial) |} |}.

Definition updatedShape (partial : TLShapePartial) (prev : TLShape) : TLShape :=
  {| shape_id := shape_id prev;
     shape_type := shape_type prev;
     shape_x := default (shape_x prev) (partial_x partial);
     shape_y := default (shape_y prev) (partial_y partial);
     props := {| text := text (props prev);
                 html := default (html (props prev)) (partial_html partial) |} |}.

Definition createShape_store (partial : TLShapePartial) (editor : Editor) : Editor :=
  {| store := <[partial_id partial := createdShape partial]> (store editor);
     selectedShapeIds := selectedShapeIds editor |}.

(** An update of an identifier that names no shape changes nothing. *)
Definition updateShape_store (partial : TLShapePartial) (editor : Editor) : Editor :=
  match store editor !! partial_id partial with
  | Some prev =>
      {| store := <[partial_id partial := updatedShape partial prev]> (store editor);
         selectedShapeIds := selectedShapeIds editor |}
  | None => editor
  end.

Definition deleteShape_store (id : TLShapeId) (editor : Editor) : Editor :=
  {| store := delete id (store editor);
     selectedShapeIds := selectedShapeIds editor |}.

(** ** The remote endpoint *)

Inductive MessagePart :=
| ImageUrlPart (url : string) (detail : string)
| TextPart (part_text : string).

Definition MessageContent := list MessagePart.

Inductive GPT4VContent :=
| PlainContent (s : string)
| PartsContent (parts : MessageContent).

Record GPT4VMessage := {
  role : string;
  content : GPT4VContent
}.

Record CompletionRequest := {
  model : string;
  max_tokens : float;
  temperature : float;
  messages : list GPT4VMessage
}.

(** Modelled from the spec: the reply type declared in
    [./lib/fetchFromOpenAi], either [{error: {message}}] or
    [{choices: [{message: {content}}]}]. *)
Record ApiError := { error_message : string }.
Record ChoiceMessage := { message_content : string }.
Record Choice := { choice_message : ChoiceMessage }.
Record GPT4VCompletionResponse := {
  error : option ApiError;
  choices : list Choice
}.

(** What a JavaScript [throw] carries in this program. *)
Inductive Thrown :=
| JsError (message : string)
| JsTypeError
| Rejection (reason : string).

(** The outcome of awaiting the remote call: the promise rejects (a
    transport-level failure) or resolves to a reply. *)
Inductive FetchResult :=
| Rejects (e : Thrown)
| Resolves (response : GPT4VCompletionResponse).

(** The four error kinds the specification names, as the source raises
    them. *)
Definition EmptySelectionError : Thrown :=
  JsError "First select something to make real.".
Definition NoBoundsError : Thrown := JsError "No selection bounds".
Definition MultiplePriorResponsesError : Thrown :=
  JsError "You can only have one previous response selected".
Definition RemoteApiError (message : string) : Thrown := JsError message.

(** ** Collaborators outside this file *)

Record Host := {
  (* ./lib/getSelectionAsImageDataUrl: the opaque capture function *)
  getSelectionAsImageDataUrl : Editor -> string;
  (* editor.getShapeAndDescendantIds, in the iteration order of the set *)
  getShapeAndDescendantIds : Editor -> list TLShapeId -> list TLShapeId;
  (* editor.getSelectionPageBounds *)
  getSelectionPageBounds : Editor -> option Box;
  (* the identifier createShapeId() hands out in this invocation *)
  createShapeId : TLShapeId;
  (* the value of the #openai_key_risky_but_cool input, if the page has one *)
  openai_key_risky_but_cool : option string;
  (* ./lib/fetchFromOpenAi *)
  fetchFromOpenAi : option string -> CompletionRequest -> FetchResult
}.

(** ** Effects: canvas mutations and network calls, in order *)

Inductive Event :=
| EvCreateShape (partial : TLShapePartial)
| EvUpdateShape (partial : TLShapePartial)
| EvDeleteShape (id : TLShapeId)
| EvFetch (apiKey : option string) (request : CompletionRequest)
    (result : FetchResult).

Record World := {
  canvas : Editor;
  log : list Event
}.

Inductive Completion (A : Type) :=
| Normal (a : A)
| Throw (e : Thrown).
Arguments Normal {A} a.
Arguments Throw {A} e.

Definition M (A : Type) : Type := World -> Completion A * World.

Definition ret {A} (a : A) : M A := fun w => (Normal a, w).

Definition throw {A} (e : Thrown) : M A := fun w => (Throw e, w).

Definition bind {A B} (m : M A) (k : A -> M B) : M B :=
  fun w =>
    match m w with
    | (Normal a, w') => k a w'
    | (Throw e, w') => (Throw e, w')
    end.

(** [try { body } catch (e) { handler(e) }]: what the body did to the world
    before it threw stays done. *)
Definition tryCatch {A} (body : M A) (handler : Thrown -> M A) : M A :=
  fun w =>
    match body w with
    | (Normal a, w') => (Normal a, w')
    | (Throw e, w') => handler e w'
    end.

(** Reading the editor. *)
Definition reads {A} (f : Editor -> A) : M A :=
  fun w => (Normal (f (canvas w)), w).

(** Running a computation that reads the editor and may throw. *)
Definition attempt {A} (f : Editor -> Completion A) : M A :=
  fun w => (f (canvas w), w).

Definition emit (ev : Event) (f : Editor -> Editor) : M unit :=
  fun w => (Normal tt, {| canvas := f (canvas w); log := log w ++ [ev] |}).

Declare Scope js_scope.
Delimit Scope js_scope with js.
Notation "x <- m ;; k" := (bind m (fun x => k))
  (at level 100, m at next level, right associativity) : js_scope.
Notation "m ;;; k" := (bind m (fun _ => k))
  (at level 100, right associativity) : js_scope.

Definition createShape (partial : TLShapePartial) : M unit :=
  emit (EvCreateShape partial) (createShape_store partial).

Definition updateShape (partial : TLShapePartial) : M unit :=
  emit (EvUpdateShape partial) (updateShape_store partial).

Definition deleteShape (id : TLShapeId) : M unit :=
  emit (EvDeleteShape id) (deleteShape_store id).

(** ** The program *)

Local Open Scope js_scope.

(** The system prompt, line by line as the template literal has it. *)
Definition systemPrompt : string :=
  String.concat Js.newline [
    "You are a generative artist who specializes in p5.js.";
    "A user will provide you with an input image. ";
    "You will return a single html file that uses p5.js code to draw an generative artwork that looks exactly the same as the input image. ";
    "Use any complex methods to draw out the art that look as similar to the input image as possible, matching style, shape, colors and strokes.";
    "User might also include text in the sketch, use it as a extra description guidance.";
    "Do not load any images in the resulting code.";
    "They may also provide you with the code file of a previous art that they want you to iterate from.";
    "Carry out any changes they request from you.";
    "Respond ONLY with the contents of the html file."
  ].

Section Program.

Variable host : Host.

(** The callback of [.map] in [getSelectionAsText]. *)
Definition textOfShapeId (editor : Editor) (id : TLShapeId) : option string :=
  match getShape editor id with
  | None => None
  | Some shape =>
      if String.eqb (shape_type shape) "text"
         || String.eqb (shape_type shape) "geo"
         || String.eqb (shape_type shape) "arrow"
         || String.eqb (shape_type shape) "note"
      then Some (text (props shape))
      else None
  end.

(** The callback of [.filter] in [getSelectionAsText]:
    [v !== null && v !== '']. *)
Definition notNullNorEmpty (v : option string) : bool :=
  match v with
  | None => false
  | Some s => negb (String.eqb s "")
  end.

Definition getSelectionAsText (editor : Editor) : string :=
  let selectedShapeIds := getSelectedShapeIds editor in
  let selectedShapeDescendantIds :=
    getShapeAndDescendantIds host editor selectedShapeIds in
  let texts :=
    List.filter notNullNorEmpty
      (map (textOfShapeId editor) selectedShapeDescendantIds) in
  Js.join Js.newline texts.

Definition isResponse (shape : TLShape) : bool :=
  String.eqb (shape_type shape) "response".

Definition getContentOfPreviousResponse (editor : Editor)
  : Completion (option string) :=
  let previousResponses := List.filter isResponse (getSelectedShapes editor) in
  if (length previousResponses =? 0)%nat then Normal None
  else if (1 <? length previousResponses)%nat
  then Throw (JsError "You can only have one previous response selected")
  else match previousResponses with
       | first :: _ => Normal (Some (html (props first)))
       | [] => Throw JsTypeError
       end.

Definition buildPromptForOpenAi (editor : Editor)
  : Completion (list GPT4VMessage) :=
  let userMessages := [
    ImageUrlPart (getSelectionAsImageDataUrl host editor) "high";
    TextPart "Turn this into a single html file using tailwind.";
    TextPart (getSelectionAsText editor)
  ] in
  match getContentOfPreviousResponse editor with
  | Throw e => Throw e
  | Normal previousResponseContent =>
      let userMessages :=
        if Js.truthy previousResponseContent
        then (userMessages ++ [TextPart (default "" previousResponseContent)])%list
        else userMessages in
      Normal [
        {| role := "system"; content := PlainContent systemPrompt |};
        {| role := "user"; content := PartsContent userMessages |}
      ]
  end.

Definition populateResponseShape (responseShapeId : TLShapeId)
    (openAiResponse : GPT4VCompletionResponse) : M unit :=
  match error openAiResponse with
  | Some err => throw (JsError (error_message err))
  | None =>
      match choices openAiResponse with
      | [] => throw JsTypeError
      | choice :: _ =>
          let message := message_content (choice_message choice) in
          let html := extractHtml message in
          updateShape {| partial_id := responseShapeId;
                         partial_type := "response";
                         partial_x := None;
                         partial_y := None;
                         partial_html := Some html |}
      end
  end.

Definition makeEmptyResponseShape : M TLShapeId :=
  selectionBounds <- reads (getSelectionPageBounds host) ;;
  match selectionBounds with
  | None => throw (JsError "No selection bounds")
  | Some selectionBounds =>
      let newShapeId := createShapeId host in
      createShape {| partial_id := newShapeId;
                     partial_type := "response";
                     partial_x := Some (maxX selectionBounds + 60)%float;
                     partial_y := Some (box_y selectionBounds);
                     partial_html := None |} ;;;
      ret newShapeId
  end.

(** Awaiting the server action: the call is logged with its outcome, and a
    rejection is thrown at the [await]. *)
Definition awaitFetchFromOpenAi (apiKey : option string)
    (request : CompletionRequest) : M GPT4VCompletionResponse :=
  fun w =>
    let result := fetchFromOpenAi host apiKey request in
    let w' := {| canvas := canvas w;
                 log := log w ++ [EvFetch apiKey request result] |} in
    match result with
    | Rejects e => (Throw e, w')
    | Resolves response => (Normal response, w')
    end.

Definition makeReal : M unit :=
  selectedShapes <- reads getSelectedShapes ;;
  if (length selectedShapes =? 0)%nat
  then throw (JsError "First select something to make real.")
  else
    prompt <- attempt buildPromptForOpenAi ;;
    responseShapeId <- makeEmptyResponseShape ;;
    tryCatch
      (let apiKeyFromDangerousApiKeyInput := openai_key_risky_but_cool host in
       openAiResponse <-
         awaitFetchFromOpenAi apiKeyFromDangerousApiKeyInput
           {| model := "gpt-4-vision-preview";
              max_tokens := 4096%float;
              temperature := 0%float;
              messages := prompt |} ;;
       populateResponseShape responseShapeId openAiResponse)
      (fun e =>
         deleteShape responseShapeId ;;;
         throw e).

(** One invocation on a canvas, from an empty log. *)
Definition invoke (editor : Editor) : Completion unit * World :=
  makeReal {| canvas := editor; log := [] |}.

End Program.


(** ** The runs of one invocation

    The record literals of [makeReal] under names, and the paths an
    invocation can take, each with the completion it returns, the canvas it
    leaves and the effects it performed, in order. *)

Definition initialWorld (editor : Editor) : World :=
  {| canvas := editor; log := [] |}.

(** The argument of [createShape] in [makeEmptyResponseShape]. *)
Definition placeholderPartial (id : TLShapeId) (selectionBounds : Box)
  : TLShapePartial :=
  {| partial_id := id;
     partial_type := "response";
     partial_x := Some (maxX selectionBounds + 60)%float;
     partial_y := Some (box_y selectionBounds);
     partial_html := None |}.

(** The argument of [updateShape] in [populateResponseShape]. *)
Definition htmlUpdate (id : TLShapeId) (html : string) : TLShapePartial :=
  {| partial_id := id;
     partial_type := "response";
     partial_x := None;
     partial_y := None;
     partial_html := Some html |}.

(** The body of the request in [makeReal]. *)
Definition completionRequest (prompt : list GPT4VMessage) : CompletionRequest :=
  {| model := "gpt-4-vision-preview";
     max_tokens := 4096%float;
     temperature := 0%float;
     messages := prompt |}.

(** What the [try] block can throw, by where it is raised: at the remote
    call, at the check of the structured error field, or at the extraction
    (reading [choices[0].message] when there is no first choice). *)
Inductive RaisedInTry : FetchResult -> Thrown -> Prop :=
| RaisedByCall (e : Thrown) :
    RaisedInTry (Rejects e) e
| RaisedByErrorField (response : GPT4VCompletionResponse) (err : ApiError) :
    error response = Some err ->
    RaisedInTry (Resolves response) (RemoteApiError (error_message err))
| RaisedByExtraction (response : GPT4VCompletionResponse) :
    error response = None ->
    choices response = [] ->
    RaisedInTry (Resolves response) JsTypeError.

Definition isFetch (ev : Event) : bool :=
  match ev with
  | EvFetch _ _ _ => true
  | _ => false
  end.

Inductive Run (host : Host) (editor : Editor)
  : Completion unit -> World -> Prop :=
| RunEmptySelection :
    getSelectedShapes editor = [] ->
    Run host editor (Throw EmptySelectionError) (initialWorld editor)
| RunPromptFailed (e : Thrown) :
    getSelectedShapes editor <> [] ->
    buildPromptForOpenAi host editor = Throw e ->
    Run host editor (Throw e) (initialWorld editor)
| RunNoBounds (prompt : list GPT4VMessage) :
    getSelectedShapes editor <> [] ->
    buildPromptForOpenAi host editor = Normal prompt ->
    getSelectionPageBounds host editor = None ->
    Run host editor (Throw NoBoundsError) (initialWorld editor)
| RunRolledBack (prompt : list GPT4VMessage) (selectionBounds : Box)
    (result : FetchResult) (e : Thrown) :
    getSelectedShapes editor <> [] ->
    buildPromptForOpenAi host editor = Normal prompt ->
    getSelectionPageBounds host editor = Some selectionBounds ->
    fetchFromOpenAi host (openai_key_risky_but_cool host)
      (completionRequest prompt) = result ->
    RaisedInTry result e ->
    let id := createShapeId host in
    let placeholder := placeholderPartial id selectionBounds in
    Run host editor (Throw e)
      {| canvas := deleteShape_store id (createShape_store placeholder editor);
         log := [EvCreateShape placeholder;
                 EvFetch (openai_key_risky_but_cool host)
                   (completionRequest prompt) result;
                 EvDeleteShape id] |}
| RunPopulated (prompt : list GPT4VMessage) (selectionBounds : Box)
    (response : GPT4VCompletionResponse) (choice : Choice)
    (rest : list Choice) :
    getSelectedShapes editor <> [] ->
    buildPromptForOpenAi host editor = Normal prompt ->
    getSelectionPageBounds host editor = Some selectionBounds ->
    fetchFromOpenAi host (openai_key_risky_but_cool host)
      (completionRequest prompt) = Resolves response ->
    error response = None ->
    choices response = choice :: rest ->
    let id := createShapeId host in
    let placeholder := placeholderPartial id selectionBounds in
    let update :=
      htmlUpdate id (extractHtml (message_content (choice_message choice))) in
    Run host editor (Normal tt)
      {| canvas := updateShape_store update (createShape_store placeholder editor);
         log := [EvCreateShape placeholder;
                 EvFetch (openai_key_risky_but_cool host)
                   (completionRequest prompt) (Resolves response);
                 EvUpdateShape update] |}.

(** ** Gathered text, as the specification words it

    Expand the selection to its descendants, keep the shapes whose kind is
    on the allow-list, take their text, keep the non-empty ones, and put
    one per line. *)

Definition allowList : list string := ["text"; "geo"; "arrow"; "note"].

Definition allowListed (shape : TLShape) : bool :=
  bool_decide (shape_type shape ∈ allowList).

Definition gatheredEntries (editor : Editor) (ids : list TLShapeId)
  : list string :=
  List.filter (fun t => negb (String.eqb t ""))
    (map (fun shape => text (props shape))
       (List.filter allowListed (omap (getShape editor) ids))).

Definition gatheredText_spec (host : Host) (editor : Editor) : string :=
  String.concat Js.newline
    (gatheredEntries editor
       (getShapeAndDescendantIds host editor (getSelectedShapeIds editor))).

(** The prompt with the three fixed user parts and an optional fourth. *)
Definition promptWith (host : Host) (editor : Editor)
    (prior : option string) : list GPT4VMessage :=
  [ {| role := "system"; content := PlainContent systemPrompt |};
    {| role := "user";
       content :=
         PartsContent
           ([ ImageUrlPart (getSelectionAsImageDataUrl host editor) "high";
              TextPart "Turn this into a single html file using tailwind.";
              TextPart (getSelectionAsText host editor) ]
              ++ match prior with
                 | Some html => [TextPart html]
                 | None => []
                 end)%list |} ].
(** * Concrete canvases and replies

    Small inputs on which the definitions above are run. *)

Module Fixtures.

(** A reply that mentions the closing tag before the document starts. *)
Definition strayClosingTagReply : string :=
  "</html><!DOCTYPE html><html></html>".

Definition shapeOf (id kind label markup : string) : TLShape :=
  {| shape_id := id; shape_type := kind; shape_x := 0; shape_y := 0;
     props := {| text := label; html := markup |} |}.

Definition hello : TLShape := shapeOf "shape:hello" "text" "Hello" "".
Definition blankBox : TLShape := shapeOf "shape:box" "geo" "" "".
Definition scribble : TLShape := shapeOf "shape:scribble" "draw" "" "".
Definition sticky : TLShape := shapeOf "shape:sticky" "note" "make it blue" "".
Definition earlier : TLShape :=
  shapeOf "shape:earlier" "response" "" "<!DOCTYPE html><html>v1</html>".
Definition another : TLShape :=
  shapeOf "shape:another" "response" "" "<!DOCTYPE html><html>v2</html>".
Definition pending : TLShape := shapeOf "shape:pending" "response" "" "".

Definition canvasOf (shapes : list TLShape) (selected : list string) : Editor :=
  {| store := list_to_map (map (fun shape => (shape_id shape, shape)) shapes);
     selectedShapeIds := selected |}.

Definition everything : list TLShape :=
  [hello; blankBox; scribble; sticky; earlier; another; pending].

(** A text shape and an unlabelled box. *)
Definition sketch : Editor :=
  canvasOf everything ["shape:hello"; "shape:box"].

(** Nothing selected. *)
Definition idle : Editor := canvasOf everything [].

(** A sketch, a note and one earlier response. *)
Definition iteration : Editor :=
  canvasOf everything ["shape:scribble"; "shape:sticky"; "shape:earlier"].

(** Two earlier responses at once. *)
Definition twoResponses : Editor :=
  canvasOf everything ["shape:earlier"; "shape:another"].

(** A response that never received its markup. *)
Definition withPending : Editor :=
  canvasOf everything ["shape:hello"; "shape:pending"].

Definition bounds : Box :=
  {| box_x := 20; box_y := 50; maxX := 100; maxY := 90 |}.

Definition hostReplying (result : FetchResult) : Host :=
  {| getSelectionAsImageDataUrl := fun _ => "data:image/png;base64,AAAA";
     getShapeAndDescendantIds := fun _ ids => ids;
     getSelectionPageBounds := fun _ => Some bounds;
     createShapeId := "shape:new";
     openai_key_risky_but_cool := None;
     fetchFromOpenAi := fun _ _ => result |}.

Definition replyOf (text : string) : GPT4VCompletionResponse :=
  {| error := None;
     choices := [ {| choice_message := {| message_content := text |} |} ] |}.

Definition page : GPT4VCompletionResponse :=
  replyOf "Here you go: <!DOCTYPE html><html></html> Enjoy!".

Definition rateLimited : GPT4VCompletionResponse :=
  {| error := Some {| error_message := "Rate limit reached" |};
     choices := [] |}.

Definition offline : Thrown := Rejection "fetch failed".

(** A host whose canvas reports no bounds for the selection. *)
Definition hostWithoutBounds (result : FetchResult) : Host :=
  {| getSelectionAsImageDataUrl := fun _ => "data:image/png;base64,AAAA";
     getShapeAndDescendantIds := fun _ ids => ids;
     getSelectionPageBounds := fun _ => None;
     createShapeId := "shape:new";
     openai_key_risky_but_cool := Some "sk-from-the-input";
     fetchFromOpenAi := fun _ _ => result |}.

(** A reply with neither error field nor any choice. *)
Definition noChoice : GPT4VCompletionResponse :=
  {| error := None; choices := [] |}.

(** A reply in prose, without any markup. *)
Definition refusal : GPT4VCompletionResponse :=
  replyOf "I cannot help with that.".

(** A reply cut off before the document was closed. *)
Definition truncated : string := "Ok <!DOCTYPE html><html><body>".

(** A reply that lost its beginning. *)
Definition beheaded : string := "<body></body></html>".



End Fixtures.

(** * Properties *)

(** ** Strings: occurrences, [indexOf] and [slice] *)

Section StringFacts.

Local Open Scope nat_scope.




Lemma substring_length_bound (s t : string) (n : nat) :
  String.substring n (String.length t) s = t ->
  t <> "" ->
  n + String.length t <= String.length s.
Proof.
  revert n t. induction s as [|c s IH]; intros n t Heq Hne.
  - destruct n, t; cbn in Heq; congruence.
  - destruct n as [|n].
    + destruct t as [|a t]; [congruence|]. cbn in Heq.
      injection Heq as _ Heq. cbn.
      destruct t as [|b t]; [cbn; lia|].
      specialize (IH 0 (String b t) Heq ltac:(discriminate)).
      cbn in IH |- *. lia.
    + cbn in Heq. specialize (IH n t Heq Hne). cbn. lia.
Qed.

Lemma index_bound (marker s : string) (from n : nat) :
  marker <> "" ->
  String.index from marker s = Some n ->
  n + String.length marker <= String.length s.
Proof.
  intros Hne Hidx. apply substring_length_bound; [|assumption].
  exact (String.index_correct1 _ _ _ _ Hidx).
Qed.

(** The first occurrence overall is also the first one from any earlier
    position on. *)
Lemma index_from_earlier (marker s : string) (from n : nat) :
  marker <> "" ->
  String.index 0 marker s = Some n ->
  from <= n ->
  String.index from marker s = Some n.
Proof.
  intros Hne H0 Hle.
  pose proof (String.index_correct1 _ _ _ _ H0) as Hat.
  destruct (String.index from marker s) as [n'|] eqn:Hfrom.
  - f_equal.
    pose proof (String.index_correct1 _ _ _ _ Hfrom) as Hat'.
    destruct (Nat.lt_trichotomy n' n) as [Hlt|[Heq|Hgt]]; [|assumption|].
    + exfalso. apply (String.index_correct2 _ _ _ _ H0 n'); [lia|lia|assumption].
    + exfalso. apply (String.index_correct2 _ _ _ _ Hfrom n); [lia|lia|assumption].
  - exfalso. exact (String.index_correct3 _ n _ _ Hfrom Hne Hle Hat).
Qed.

Lemma substring_empty (n m : nat) : String.substring n m "" = "".
Proof. destruct n, m; reflexivity. Qed.

(** Reading inside a substring is reading in the string. *)
Lemma substring_substring (s : string) (i n p q : nat) :
  p + q <= n ->
  String.substring p q (String.substring i n s) = String.substring (i + p) q s.
Proof.
  revert i n p q. induction s as [|c s IH]; intros i n p q Hle.
  - rewrite !substring_empty. reflexivity.
  - destruct i as [|i]; [|exact (IH i n p q Hle)].
    destruct n as [|n].
    + assert (p = 0) as -> by lia. assert (q = 0) as -> by lia. reflexivity.
    + destruct p as [|p].
      * destruct q as [|q]; [reflexivity|].
        cbn. f_equal. apply (IH 0 n 0 q). lia.
      * apply (IH 0 n p q). lia.
Qed.

Lemma substring_length (s : string) (i n : nat) :
  i + n <= String.length s ->
  String.length (String.substring i n s) = n.
Proof.
  revert i n. induction s as [|c s IH]; intros i n Hle.
  - cbn in Hle. assert (i = 0) as -> by lia. assert (n = 0) as -> by lia.
    reflexivity.
  - destruct i as [|i].
    + destruct n as [|n]; [reflexivity|].
      cbn. f_equal. apply IH. cbn in Hle. lia.
    + cbn. apply IH. cbn in Hle. lia.
Qed.

(** [slice] between two positions inside the string is [substring]. *)
Lemma slice_inside (s : string) (a b : nat) :
  a <= b -> b <= String.length s ->
  Js.slice s (Z.of_nat a) (Z.of_nat b) = String.substring a (b - a) s.
Proof.
  intros Hab Hb. unfold Js.slice, Js.relativeIndex.
  destruct (Z.ltb_spec (Z.of_nat a) 0); [lia|].
  destruct (Z.ltb_spec (Z.of_nat b) 0); [lia|].
  rewrite !Z.min_l by lia.
  destruct (Z.leb_spec (Z.of_nat b) (Z.of_nat a)).
  - assert (b - a = 0) as -> by lia.
    clear. revert a. induction s as [|c s IH]; intros [|k]; cbn; auto.
  - rewrite Nat2Z.id. f_equal. lia.
Qed.

(** An end position at or before the start gives the empty string. *)
Lemma slice_crossed (s : string) (a b : nat) :
  b <= a -> a <= String.length s ->
  Js.slice s (Z.of_nat a) (Z.of_nat b) = "".
Proof.
  intros Hba Ha. unfold Js.slice, Js.relativeIndex.
  destruct (Z.ltb_spec (Z.of_nat a) 0); [lia|].
  destruct (Z.ltb_spec (Z.of_nat b) 0); [lia|].
  rewrite !Z.min_l by lia.
  destruct (Z.leb_spec (Z.of_nat b) (Z.of_nat a)); [reflexivity|lia].
Qed.

End StringFacts.

(** ** Extraction *)

Section Extraction.

Local Open Scope nat_scope.

Lemma DOCTYPE_nonempty : DOCTYPE <> "".
Proof. discriminate. Qed.

Lemma CLOSING_TAG_nonempty : CLOSING_TAG <> "".
Proof. discriminate. Qed.

Lemma indexOf_found (message marker : string) (n : nat) :
  String.index 0 marker message = Some n ->
  Js.indexOf message marker = Z.of_nat n.
Proof. intros H. unfold Js.indexOf. rewrite H. reflexivity. Qed.

(** The closing tag read first and not before the doctype marker: the
    slice runs from the one through the other. *)
Lemma extractHtml_between (message : string) (s e : nat) :
  String.index 0 DOCTYPE message = Some s ->
  String.index 0 CLOSING_TAG message = Some e ->
  s <= e ->
  extractHtml message =
  String.substring s (e + String.length CLOSING_TAG - s) message.
Proof.
  intros Hs He Hle. unfold extractHtml.
  rewrite (indexOf_found _ _ _ Hs), (indexOf_found _ _ _ He).
  rewrite <- Nat2Z.inj_add.
  apply slice_inside; [lia|].
  exact (index_bound _ _ _ _ CLOSING_TAG_nonempty He).
Qed.

(** Reading a marker at a position fixes the characters there. *)
Lemma marker_chars (message marker : string) (n k : nat) :
  String.substring n (String.length marker) message = marker ->
  k < String.length marker ->
  String.get (k + n) message = String.get k marker.
Proof.
  intros Hat Hk.
  rewrite <- (String.substring_correct1 message n (String.length marker) k Hk).
  rewrite Hat. reflexivity.
Qed.

(** A doctype marker cannot begin inside a closing tag: the tag has no
    second ["<"]. *)
Lemma markers_disjoint (message : string) (s e : nat) :
  String.substring s (String.length DOCTYPE) message = DOCTYPE ->
  String.substring e (String.length CLOSING_TAG) message = CLOSING_TAG ->
  e < s ->
  e + String.length CLOSING_TAG <= s.
Proof.
  intros Hs He Hlt.
  destruct (Nat.le_gt_cases (e + String.length CLOSING_TAG) s) as [|Hin];
    [assumption|exfalso].
  pose proof (marker_chars message DOCTYPE s 0 Hs ltac:(cbn; lia)) as Hd.
  assert (s - e < String.length CLOSING_TAG) as Hk by lia.
  pose proof (marker_chars message CLOSING_TAG e (s - e) He Hk) as Hc.
  replace (s - e + e) with (0 + s) in Hc by lia.
  rewrite Hd in Hc. clear Hd Hs He.
  assert (exists k, s - e = S k /\ k < 6) as (k & Hk' & Hk6)
    by (exists (s - e - 1); cbn in Hk; lia).
  rewrite Hk' in Hc.
  do 6 (destruct k as [|k]; [discriminate Hc|]). lia.
Qed.

(** Nor can a closing tag begin inside a doctype marker: the marker has
    no ["/"], and its only ["<"] is followed by ["!"]. *)
Lemma closing_tag_after_doctype (message : string) (s e : nat) :
  String.substring s (String.length DOCTYPE) message = DOCTYPE ->
  String.substring e (String.length CLOSING_TAG) message = CLOSING_TAG ->
  s <= e ->
  s + String.length DOCTYPE <= e.
Proof.
  intros Hs He Hle.
  destruct (Nat.le_gt_cases (s + String.length DOCTYPE) e) as [|Hin];
    [assumption|exfalso].
  assert (exists k, e = k + s /\ k < 15) as (k & -> & Hk)
    by (exists (e - s); cbn in Hin; lia).
  pose proof (marker_chars message CLOSING_TAG (k + s) 0 He ltac:(cbn; lia))
    as Hlt.
  pose proof (marker_chars message CLOSING_TAG (k + s) 1 He ltac:(cbn; lia))
    as Hslash.
  change (0 + (k + s)) with (k + s) in Hlt.
  rewrite (marker_chars message DOCTYPE s k Hs ltac:(cbn; lia)) in Hlt.
  destruct (Nat.eq_dec k 14) as [->|Hne]; [discriminate Hlt|].
  replace (1 + (k + s)) with (S k + s) in Hslash by lia.
  rewrite (marker_chars message DOCTYPE s (S k) Hs ltac:(cbn; lia)) in Hslash.
  clear - Hk Hne Hslash.
  do 14 (destruct k as [|k]; [discriminate Hslash|]). lia.
Qed.

(** The substring from a doctype marker through a closing tag after it has
    the length of that stretch, begins with the marker and ends with the
    tag. *)
Lemma span_has_both_markers (message : string) (s e : nat) :
  String.substring s (String.length DOCTYPE) message = DOCTYPE ->
  String.substring e (String.length CLOSING_TAG) message = CLOSING_TAG ->
  s <= e ->
  let span :=
    String.substring s (e + String.length CLOSING_TAG - s) message in
  String.length span = e + String.length CLOSING_TAG - s /\
  String.substring 0 (String.length DOCTYPE) span = DOCTYPE /\
  String.substring (String.length span - String.length CLOSING_TAG)
    (String.length CLOSING_TAG) span = CLOSING_TAG.
Proof.
  intros Hs He Hle span.
  pose proof (closing_tag_after_doctype message s e Hs He Hle) as Hafter.
  pose proof (substring_length_bound message CLOSING_TAG e He
                CLOSING_TAG_nonempty) as Hend.
  assert (String.length span = e + String.length CLOSING_TAG - s) as Hlen
    by (apply substring_length; lia).
  split; [assumption|]. split.
  - unfold span. rewrite substring_substring by lia.
    rewrite Nat.add_0_r. assumption.
  - rewrite Hlen. unfold span. rewrite substring_substring by lia.
    replace (s + (e + String.length CLOSING_TAG - s
                  - String.length CLOSING_TAG)) with e by lia.
    assumption.
Qed.

(** The closing tag read first and before the doctype marker: the end of
    the slice does not pass its start, and nothing is extracted. *)
Lemma extractHtml_crossed (message : string) (s e : nat) :
  String.index 0 DOCTYPE message = Some s ->
  String.index 0 CLOSING_TAG message = Some e ->
  e < s ->
  extractHtml message = "".
Proof.
  intros Hs He Hlt. unfold extractHtml.
  rewrite (indexOf_found _ _ _ Hs), (indexOf_found _ _ _ He).
  rewrite <- Nat2Z.inj_add.
  apply slice_crossed.
  - apply (markers_disjoint message); eauto using String.index_correct1.
  - pose proof (index_bound _ _ _ _ DOCTYPE_nonempty Hs). lia.
Qed.




End Extraction.

(** C2, as stated, fails: both markers occur in the reply, the closing tag
    first; the substring from the doctype marker through the first closing
    tag at or after it is the whole document, but the code finds the closing
    tag at position 0 and extracts the empty string. *)
Lemma extraction_stray_closing_tag_counterexample :
  String.index 0 DOCTYPE Fixtures.strayClosingTagReply = Some 7%nat /\
  String.index 0 CLOSING_TAG Fixtures.strayClosingTagReply = Some 0%nat /\
  String.index 7 CLOSING_TAG Fixtures.strayClosingTagReply = Some 28%nat /\
  extractHtml_spec Fixtures.strayClosingTagReply = Some "<!DOCTYPE html><html></html>" /\
  extractHtml Fixtures.strayClosingTagReply = "" /\
  extractHtml_spec Fixtures.strayClosingTagReply <> Some (extractHtml Fixtures.strayClosingTagReply).
Proof. vm_compute. repeat split; discriminate. Qed.

(** What [populateResponseShape] does with a reply that has no error field:
    it extracts from the content of the first choice and updates the shape
    with the result. *)
Lemma populateResponseShape_first_choice (responseShapeId : TLShapeId)
    (openAiResponse : GPT4VCompletionResponse) (choice : Choice)
    (rest : list Choice) (w : World) :
  error openAiResponse = None ->
  choices openAiResponse = choice :: rest ->
  populateResponseShape responseShapeId openAiResponse w =
  updateShape
    (htmlUpdate responseShapeId
       (extractHtml (message_content (choice_message choice)))) w.
Proof.
  intros Herr Hchoices. unfold populateResponseShape.
  rewrite Herr, Hchoices. reflexivity.
Qed.

(** C2, amended: the code searches each marker from the start of the
    content.  The content searched is that of the first choice of the
    reply.  For every content in which both markers occur, [start] is the
    first doctype marker and [end] the first closing tag anywhere; whenever
    that closing tag is not before the doctype marker it is also the first
    one at or after it, and the artifact is the substring from the start of
    the doctype marker through the end of the closing tag, inclusive: it
    begins with the one and ends with the other. *)
Theorem extraction_first_markers (message : string) (s e : nat) :
  String.index 0 DOCTYPE message = Some s ->
  String.index 0 CLOSING_TAG message = Some e ->
  (s <= e)%nat ->
  Js.indexOf message DOCTYPE = Z.of_nat s /\
  Js.indexOf message CLOSING_TAG = Z.of_nat e /\
  String.index s CLOSING_TAG message = Some e /\
  extractHtml message =
    String.substring s (e + String.length CLOSING_TAG - s) message /\
  extractHtml_spec message = Some (extractHtml message) /\
  String.substring 0 (String.length DOCTYPE) (extractHtml message) = DOCTYPE /\
  String.substring
    (String.length (extractHtml message) - String.length CLOSING_TAG)
    (String.length CLOSING_TAG) (extractHtml message) = CLOSING_TAG /\
  (forall (id : TLShapeId) (response : GPT4VCompletionResponse)
          (rest : list Choice) (w : World),
     error response = None ->
     choices response =
       {| choice_message := {| message_content := message |} |} :: rest ->
     populateResponseShape id response w =
     updateShape
       {| partial_id := id;
          partial_type := "response";
          partial_x := None;
          partial_y := None;
          partial_html :=
            Some (String.substring s
                    (e + String.length CLOSING_TAG - s) message) |} w).
Proof.
  intros Hs He Hle.
  pose proof (index_from_earlier _ _ _ _ CLOSING_TAG_nonempty He Hle) as Hfrom.
  pose proof (extractHtml_between _ _ _ Hs He Hle) as Hhtml.
  destruct (span_has_both_markers message s e
              (String.index_correct1 _ _ _ _ Hs)
              (String.index_correct1 _ _ _ _ He) Hle) as (_ & Hopen & Hclose).
  repeat split; auto using indexOf_found.
  - unfold extractHtml_spec. rewrite Hs, Hfrom, Hhtml. reflexivity.
  - rewrite Hhtml. exact Hopen.
  - rewrite Hhtml. exact Hclose.
  - intros id response rest w Herr Hchoices.
    rewrite (populateResponseShape_first_choice _ _ _ _ w Herr Hchoices).
    cbn [choice_message message_content]. rewrite Hhtml. reflexivity.
Qed.

Lemma extraction_first_markers_witness :
  extractHtml "Sure: <!DOCTYPE html><html></html> Enjoy </html>"
  = "<!DOCTYPE html><html></html>".
Proof.
  pose proof (extraction_first_markers
                "Sure: <!DOCTYPE html><html></html> Enjoy </html>" 6 27
                eq_refl eq_refl ltac:(lia)) as (_ & _ & _ & -> & _).
  reflexivity.
Defined.

(** ** The runs of [makeReal] *)

Section Runs.

Variable host : Host.

(** Every invocation follows one of the five paths of [Run]. *)
Lemma invoke_run (editor : Editor) :
  Run host editor (invoke host editor).1 (invoke host editor).2.
Proof.
  unfold invoke, makeReal, makeEmptyResponseShape, populateResponseShape,
    awaitFetchFromOpenAi, tryCatch, createShape, updateShape, deleteShape,
    emit, bind, reads, attempt, throw, ret.
  cbn [canvas log].
  destruct (getSelectedShapes editor) as [|shape shapes] eqn:Hsel.
  { apply RunEmptySelection. assumption. }
  assert (getSelectedShapes editor <> []) as Hne by (rewrite Hsel; discriminate).
  cbn [length Nat.eqb canvas log].
  destruct (buildPromptForOpenAi host editor) as [prompt|e] eqn:Hprompt.
  2: { apply RunPromptFailed; assumption. }
  cbn [canvas log].
  destruct (getSelectionPageBounds host editor) as [b|] eqn:Hb.
  2: { apply (RunNoBounds _ _ prompt); assumption. }
  cbn [canvas log app].
  change {| model := "gpt-4-vision-preview"; max_tokens := 4096;
            temperature := 0; messages := prompt |}
    with (completionRequest prompt).
  destruct (fetchFromOpenAi host (openai_key_risky_but_cool host)
              (completionRequest prompt)) as [e|response] eqn:Hfetch.
  { apply (RunRolledBack _ _ prompt b); auto. constructor. }
  destruct (error response) as [err|] eqn:Herr.
  { apply (RunRolledBack _ _ prompt b); auto. constructor. assumption. }
  destruct (choices response) as [|choice rest] eqn:Hchoices.
  { apply (RunRolledBack _ _ prompt b); auto. constructor; assumption. }
  apply (RunPopulated _ _ prompt b response choice rest); auto.
Qed.

End Runs.

(** ** Failures before the placeholder exists *)

(** Case analysis on the path of an invocation. *)
Ltac run_cases host editor :=
  let R := fresh "R" in
  pose proof (invoke_run host editor) as R;
  destruct (invoke host editor) as [? ?]; cbn [fst snd] in *;
  inversion R; subst; clear R;
  repeat match goal with x := _ |- _ => subst x end;
  cbn [canvas log initialWorld] in *.

Lemma filter_nonempty {A} (f : A -> bool) (l : list A) :
  List.filter f l <> [] -> l <> [].
Proof. intros H ->. apply H. reflexivity. Qed.

Lemma getContentOfPreviousResponse_many (editor : Editor) :
  (2 <= length (List.filter isResponse (getSelectedShapes editor)))%nat ->
  getContentOfPreviousResponse editor = Throw MultiplePriorResponsesError.
Proof.
  intros H. unfold getContentOfPreviousResponse.
  destruct (List.filter isResponse (getSelectedShapes editor)) as [|a [|b l]];
    cbn in H |- *; [lia|lia|reflexivity].
Qed.

Lemma getContentOfPreviousResponse_none (editor : Editor) :
  List.filter isResponse (getSelectedShapes editor) = [] ->
  getContentOfPreviousResponse editor = Normal None.
Proof. intros H. unfold getContentOfPreviousResponse. rewrite H. reflexivity. Qed.

Lemma getContentOfPreviousResponse_one (editor : Editor) (previous : TLShape) :
  List.filter isResponse (getSelectedShapes editor) = [previous] ->
  getContentOfPreviousResponse editor = Normal (Some (html (props previous))).
Proof. intros H. unfold getContentOfPreviousResponse. rewrite H. reflexivity. Qed.

Lemma buildPromptForOpenAi_throws (host : Host) (editor : Editor) (e : Thrown) :
  getContentOfPreviousResponse editor = Throw e ->
  buildPromptForOpenAi host editor = Throw e.
Proof. intros H. unfold buildPromptForOpenAi. rewrite H. reflexivity. Qed.

(** The prompt is built exactly when the lookup of the previous response
    returns, and then it is the three fixed parts, followed by the previous
    HTML when that is a non-empty string. *)
Lemma buildPromptForOpenAi_returns (host : Host) (editor : Editor)
    (previous : option string) :
  getContentOfPreviousResponse editor = Normal previous ->
  buildPromptForOpenAi host editor =
  Normal (promptWith host editor
            (if Js.truthy previous then previous else None)).
Proof.
  intros H. unfold buildPromptForOpenAi, promptWith. rewrite H.
  destruct previous as [prior|]; cbn [Js.truthy]; [|rewrite app_nil_r; reflexivity].
  destruct (String.eqb prior ""); cbn [negb default];
    [rewrite app_nil_r|]; reflexivity.
Qed.

(** C4.  With nothing selected the invocation throws the empty-selection
    error; the canvas it leaves is the canvas it found, and the log of
    effects is empty: no shape was created, updated or deleted and no
    remote call was made. *)
Theorem empty_selection_fails_untouched (host : Host) (editor : Editor) :
  getSelectedShapes editor = [] ->
  (invoke host editor).1 = Throw EmptySelectionError /\
  canvas (invoke host editor).2 = editor /\
  log (invoke host editor).2 = [].
Proof.
  intros Hsel. run_cases host editor; try congruence. auto.
Qed.

Lemma empty_selection_fails_untouched_witness :
  (invoke (Fixtures.hostReplying (Resolves Fixtures.page)) Fixtures.idle).1
  = Throw (JsError "First select something to make real.")
  /\ log (invoke (Fixtures.hostReplying (Resolves Fixtures.page)) Fixtures.idle).2
     = [].
Proof.
  destruct (empty_selection_fails_untouched
              (Fixtures.hostReplying (Resolves Fixtures.page)) Fixtures.idle
              eq_refl) as (Hthrown & _ & Hlog).
  split; assumption.
Defined.

(** C5.  Two or more directly selected response shapes: the lookup throws
    the multiple-prior-responses error and so does the invocation, with the
    canvas as it was and no effect logged, hence before any placeholder.
    No response shape selected: the lookup returns [null].  Exactly one: it
    returns that shape's html. *)
Theorem multiple_prior_responses_abort (host : Host) (editor : Editor) :
  ((2 <= length (List.filter isResponse (getSelectedShapes editor)))%nat ->
     getContentOfPreviousResponse editor = Throw MultiplePriorResponsesError /\
     (invoke host editor).1 = Throw MultiplePriorResponsesError /\
     canvas (invoke host editor).2 = editor /\
     log (invoke host editor).2 = []) /\
  (List.filter isResponse (getSelectedShapes editor) = [] ->
     getContentOfPreviousResponse editor = Normal None) /\
  (forall previous : TLShape,
     List.filter isResponse (getSelectedShapes editor) = [previous] ->
     getContentOfPreviousResponse editor =
     Normal (Some (html (props previous)))).
Proof.
  split; [|split].
  - intros Hmany.
    pose proof (getContentOfPreviousResponse_many editor Hmany) as Hlookup.
    pose proof (buildPromptForOpenAi_throws host editor _ Hlookup) as Hprompt.
    split; [assumption|].
    assert (getSelectedShapes editor <> []) as Hsel.
    { apply (filter_nonempty isResponse). intros Hnil.
      rewrite Hnil in Hmany. cbn in Hmany. lia. }
    run_cases host editor; try congruence.
    assert (e = MultiplePriorResponsesError) as -> by congruence. auto.
  - apply getContentOfPreviousResponse_none.
  - apply getContentOfPreviousResponse_one.
Qed.

Lemma multiple_prior_responses_abort_witness :
  invoke (Fixtures.hostReplying (Resolves Fixtures.page)) Fixtures.twoResponses
  = (Throw (JsError "You can only have one previous response selected"),
     {| canvas := Fixtures.twoResponses; log := [] |})
  /\ getContentOfPreviousResponse Fixtures.sketch = Normal None
  /\ getContentOfPreviousResponse Fixtures.iteration
     = Normal (Some "<!DOCTYPE html><html>v1</html>").
Proof.
  pose proof (multiple_prior_responses_abort
                (Fixtures.hostReplying (Resolves Fixtures.page))
                Fixtures.twoResponses) as (Hmany & _ & _).
  destruct (Hmany ltac:(vm_compute; lia)) as (_ & Hthrown & Hcanvas & Hlog).
  pose proof (multiple_prior_responses_abort
                (Fixtures.hostReplying (Resolves Fixtures.page))
                Fixtures.sketch) as (_ & Hnone & _).
  pose proof (multiple_prior_responses_abort
                (Fixtures.hostReplying (Resolves Fixtures.page))
                Fixtures.iteration) as (_ & _ & Hone).
  split; [|split].
  - destruct (invoke _ Fixtures.twoResponses) as [c [ed events]].
    cbn in Hthrown, Hcanvas, Hlog. subst. reflexivity.
  - apply Hnone. reflexivity.
  - apply (Hone Fixtures.earlier). reflexivity.
Defined.

(** ** After the placeholder exists: commit or rollback *)

(** The one remote call of a run that got as far as the placeholder. *)
Lemma fetch_in_log (placeholder : TLShapePartial) (last : Event)
    (apiKey apiKey' : option string) (request request' : CompletionRequest)
    (result result' : FetchResult) :
  isFetch last = false ->
  EvFetch apiKey' request' result'
    ∈ [EvCreateShape placeholder; EvFetch apiKey request result; last] ->
  apiKey' = apiKey /\ request' = request /\ result' = result.
Proof.
  intros Hlast. rewrite !elem_of_cons, elem_of_nil.
  intros [H|[H|[H|[]]]].
  - discriminate.
  - injection H as -> -> ->. auto.
  - subst last. discriminate.
Qed.

Lemma create_in_log (placeholder placeholder' : TLShapePartial) (last : Event)
    (apiKey : option string) (request : CompletionRequest)
    (result : FetchResult) :
  (forall p, last <> EvCreateShape p) ->
  EvCreateShape placeholder'
    ∈ [EvCreateShape placeholder; EvFetch apiKey request result; last] ->
  placeholder' = placeholder.
Proof.
  intros Hlast. rewrite !elem_of_cons, elem_of_nil.
  intros [H|[H|[H|[]]]].
  - congruence.
  - discriminate.
  - exfalso. apply (Hlast placeholder'). congruence.
Qed.

Lemma deleted_after_created (id : TLShapeId) (selectionBounds : Box)
    (editor : Editor) :
  store (deleteShape_store id
           (createShape_store (placeholderPartial id selectionBounds) editor))
  = delete id (store editor).
Proof. cbn. apply delete_insert_eq. Qed.

Lemma updated_after_created (placeholder update : TLShapePartial)
    (editor : Editor) :
  partial_id update = partial_id placeholder ->
  store (updateShape_store update (createShape_store placeholder editor))
    !! partial_id placeholder
  = Some (updatedShape update (createdShape placeholder)).
Proof.
  intros Hid. unfold updateShape_store. rewrite Hid. cbn [createShape_store store].
  rewrite lookup_insert_eq. cbn [store]. apply lookup_insert_eq.
Qed.

(** C1.  Whenever an invocation that created the placeholder ends in an
    error [e]: its effects were the creation, the remote call and, last,
    the deletion of the placeholder by its identifier; [e] is the very
    value raised inside the [try] block, by the call, by the check of the
    error field or by the extraction; and the canvas left behind has no
    shape under the placeholder's identifier, every other shape being as
    before. *)
Theorem rollback_atomicity (host : Host) (editor : Editor)
    (placeholder : TLShapePartial) (e : Thrown) :
  EvCreateShape placeholder ∈ log (invoke host editor).2 ->
  (invoke host editor).1 = Throw e ->
  (exists apiKey request result,
     log (invoke host editor).2 =
       [EvCreateShape placeholder;
        EvFetch apiKey request result;
        EvDeleteShape (partial_id placeholder)] /\
     fetchFromOpenAi host apiKey request = result /\
     RaisedInTry result e) /\
  store (canvas (invoke host editor).2) !! partial_id placeholder = None /\
  store (canvas (invoke host editor).2) =
    delete (partial_id placeholder) (store editor).
Proof.
  intros Hcreated Hthrown.
  run_cases host editor; try (apply elem_of_nil in Hcreated; contradiction).
  - apply create_in_log in Hcreated; [|discriminate]. simplify_eq.
    rewrite deleted_after_created. cbn [placeholderPartial partial_id].
    split; [eauto 7|]. split; [apply lookup_delete_eq|reflexivity].
  - simplify_eq.
Qed.

Lemma rollback_atomicity_witness :
  (invoke (Fixtures.hostReplying (Rejects Fixtures.offline)) Fixtures.sketch).1
  = Throw Fixtures.offline
  /\ store (canvas (invoke (Fixtures.hostReplying (Rejects Fixtures.offline))
                      Fixtures.sketch).2) !! "shape:new" = None.
Proof.
  split; [reflexivity|].
  refine (proj1 (proj2 (rollback_atomicity
            (Fixtures.hostReplying (Rejects Fixtures.offline)) Fixtures.sketch
            (placeholderPartial "shape:new" Fixtures.bounds) Fixtures.offline
            _ eq_refl))).
  apply list_elem_of_here.
Defined.

(** C6.  Whenever the remote call of an invocation resolves to a reply with
    the structured error field set: the invocation throws an error carrying
    that field's message; its effects were the creation of the placeholder,
    the call and the deletion of the placeholder, and no update; the canvas
    left behind has no shape under the placeholder's identifier. *)
Theorem structured_error_rollback (host : Host) (editor : Editor)
    (apiKey : option string) (request : CompletionRequest)
    (response : GPT4VCompletionResponse) (err : ApiError) :
  EvFetch apiKey request (Resolves response) ∈ log (invoke host editor).2 ->
  error response = Some err ->
  (invoke host editor).1 = Throw (RemoteApiError (error_message err)) /\
  exists placeholder,
    log (invoke host editor).2 =
      [EvCreateShape placeholder;
       EvFetch apiKey request (Resolves response);
       EvDeleteShape (partial_id placeholder)] /\
    store (canvas (invoke host editor).2) !! partial_id placeholder = None /\
    (forall update, EvUpdateShape update ∉ log (invoke host editor).2).
Proof.
  intros Hcall Herr.
  run_cases host editor; try (apply elem_of_nil in Hcall; contradiction).
  - apply fetch_in_log in Hcall as (-> & -> & Hresult); [|reflexivity].
    match goal with H : RaisedInTry _ _ |- _ =>
      rewrite <- Hresult in H; inversion H; subst end; [|congruence].
    assert (err0 = err) as -> by congruence.
    split; [reflexivity|].
    exists (placeholderPartial (createShapeId host) selectionBounds).
    rewrite Hresult. split; [reflexivity|]. split.
    + rewrite deleted_after_created. apply lookup_delete_eq.
    + intros update. rewrite !elem_of_cons, elem_of_nil.
      intros [H'|[H'|[H'|[]]]]; discriminate.
  - apply fetch_in_log in Hcall as (_ & _ & Hresult); [|reflexivity].
    congruence.
Qed.

Lemma structured_error_rollback_witness :
  (invoke (Fixtures.hostReplying (Resolves Fixtures.rateLimited))
     Fixtures.sketch).1
  = Throw (JsError "Rate limit reached").
Proof.
  refine (proj1 (structured_error_rollback
            (Fixtures.hostReplying (Resolves Fixtures.rateLimited))
            Fixtures.sketch None
            (completionRequest
               (promptWith (Fixtures.hostReplying (Resolves Fixtures.rateLimited))
                  Fixtures.sketch None))
            Fixtures.rateLimited {| error_message := "Rate limit reached" |}
            _ eq_refl)).
  apply list_elem_of_further, list_elem_of_here.
Defined.




(** ** The prompt *)

(** What a built prompt looks like. *)
Lemma buildPromptForOpenAi_shape (host : Host) (editor : Editor)
    (prompt : list GPT4VMessage) :
  buildPromptForOpenAi host editor = Normal prompt ->
  exists fourth : list MessagePart,
    prompt =
      [ {| role := "system"; content := PlainContent systemPrompt |};
        {| role := "user";
           content :=
             PartsContent
               ([ ImageUrlPart (getSelectionAsImageDataUrl host editor) "high";
                  TextPart "Turn this into a single html file using tailwind.";
                  TextPart (getSelectionAsText host editor) ] ++ fourth)%list |} ]
    /\ ((exists prior : string,
           getContentOfPreviousResponse editor = Normal (Some prior) /\
           prior <> "" /\ fourth = [TextPart prior])
        \/ ((getContentOfPreviousResponse editor = Normal None \/
             getContentOfPreviousResponse editor = Normal (Some "")) /\
            fourth = [])).
Proof.
  intros Hprompt.
  destruct (getContentOfPreviousResponse editor) as [previous|e] eqn:Hlookup.
  2: { rewrite (buildPromptForOpenAi_throws host editor e Hlookup) in Hprompt.
       discriminate. }
  rewrite (buildPromptForOpenAi_returns host editor previous Hlookup) in Hprompt.
  injection Hprompt as <-.
  destruct previous as [prior|]; cbn [Js.truthy].
  - destruct (String.eqb_spec prior "") as [->|Hne]; cbn [negb].
    + exists []. split; [reflexivity|]. right. auto.
    + exists [TextPart prior]. split; [reflexivity|]. left. eauto.
  - exists []. split; [reflexivity|]. right. auto.
Qed.

(** Once the prompt is built and the bounds are known, the invocation
    creates the placeholder and then makes the remote call with that
    prompt; one more effect follows, an update or a deletion of the
    placeholder. *)
Lemma invoke_reaches_call (host : Host) (editor : Editor)
    (prompt : list GPT4VMessage) (selectionBounds : Box) :
  getSelectedShapes editor <> [] ->
  buildPromptForOpenAi host editor = Normal prompt ->
  getSelectionPageBounds host editor = Some selectionBounds ->
  exists (result : FetchResult) (last : Event),
    log (invoke host editor).2 =
      [EvCreateShape (placeholderPartial (createShapeId host) selectionBounds);
       EvFetch (openai_key_risky_but_cool host) (completionRequest prompt)
         result;
       last] /\
    (last = EvDeleteShape (createShapeId host) \/
     exists html, last = EvUpdateShape (htmlUpdate (createShapeId host) html)).
Proof.
  intros Hsel Hprompt Hbounds.
  run_cases host editor; try congruence;
    match goal with
    | Hb : getSelectionPageBounds _ _ = Some ?b,
      Hp : buildPromptForOpenAi _ _ = Normal ?p |- _ =>
        assert (b = selectionBounds) as -> by congruence;
        assert (p = prompt) as -> by congruence
    end;
    do 2 eexists; (split; [reflexivity|]); eauto.
Qed.

Lemma RaisedInTry_functional (result : FetchResult) (e e' : Thrown) :
  RaisedInTry result e -> RaisedInTry result e' -> e = e'.
Proof.
  intros H H'. inversion H; subst; inversion H'; subst; congruence.
Qed.

Lemma store_updated_after_created (placeholder update : TLShapePartial)
    (editor : Editor) :
  partial_id update = partial_id placeholder ->
  store (updateShape_store update (createShape_store placeholder editor))
  = <[partial_id placeholder := updatedShape update (createdShape placeholder)]>
      (<[partial_id placeholder := createdShape placeholder]> (store editor)).
Proof.
  intros Hid. unfold updateShape_store. rewrite Hid.
  cbn [createShape_store store]. rewrite lookup_insert_eq. reflexivity.
Qed.

(** An invocation is determined by the shapes on the canvas, by whether
    anything is selected, by the prompt and by the bounds: two canvases
    that agree on these see the same completion, the same effects and the
    same shapes afterwards. *)
Lemma invoke_determined (host : Host) (editor other : Editor) :
  store other = store editor ->
  (getSelectedShapes other = [] <-> getSelectedShapes editor = []) ->
  buildPromptForOpenAi host other = buildPromptForOpenAi host editor ->
  getSelectionPageBounds host other = getSelectionPageBounds host editor ->
  (invoke host other).1 = (invoke host editor).1 /\
  log (invoke host other).2 = log (invoke host editor).2 /\
  store (canvas (invoke host other).2) = store (canvas (invoke host editor).2).
Proof.
  intros Hstore Hsel Hprompt Hbounds.
  run_cases host editor; run_cases host other;
    try tauto; try congruence;
    repeat match goal with
    | H : buildPromptForOpenAi host other = Normal _ |- _ =>
        rewrite Hprompt in H
    | H : buildPromptForOpenAi host other = Throw _ |- _ =>
        rewrite Hprompt in H
    | H : getSelectionPageBounds host other = Some _ |- _ =>
        rewrite Hbounds in H
    | H : getSelectionPageBounds host other = None |- _ =>
        rewrite Hbounds in H
    end;
    try congruence;
    repeat match goal with
    | H : ?x = Normal ?p, H' : ?x = Normal ?q |- _ =>
        rewrite H in H'; injection H' as ->
    | H : ?x = Throw ?p, H' : ?x = Throw ?q |- _ =>
        rewrite H in H'; injection H' as ->
    | H : ?x = Some ?p, H' : ?x = Some ?q |- _ =>
        rewrite H in H'; injection H' as ->
    end.
  - auto.
  - match goal with
    | H : RaisedInTry _ ?a, H' : RaisedInTry _ ?b |- _ =>
        pose proof (RaisedInTry_functional _ _ _ H H') as ->
    end.
    rewrite !deleted_after_created, Hstore. auto.
  - exfalso.
    match goal with
    | H : RaisedInTry ?r _, H' : ?r = Resolves _ |- _ =>
        rewrite H' in H; inversion H; subst; congruence
    end.
  - exfalso.
    match goal with
    | H : RaisedInTry ?r _, H' : ?r = Resolves _ |- _ =>
        rewrite H' in H; inversion H; subst; congruence
    end.
  - match goal with
    | H : ?x = Resolves ?p, H' : ?x = Resolves ?q |- _ =>
        rewrite H in H'; injection H' as ->
    end.
    assert (choice0 = choice) as -> by congruence.
    rewrite !store_updated_after_created, Hstore by reflexivity. auto.
Qed.

(** C7.  The request of every remote call an invocation makes carries
    exactly two messages: the system message with the fixed system prompt,
    and the user message, whose parts are the image of the selection at
    detail "high", the fixed instruction, the gathered text (whatever it
    is, the empty string included), and then the previous response's HTML
    if and only if the lookup returned a non-empty string. *)
Theorem prompt_shape (host : Host) (editor : Editor)
    (apiKey : option string) (request : CompletionRequest)
    (result : FetchResult) :
  EvFetch apiKey request result ∈ log (invoke host editor).2 ->
  exists fourth : list MessagePart,
    messages request =
      [ {| role := "system"; content := PlainContent systemPrompt |};
        {| role := "user";
           content :=
             PartsContent
               ([ ImageUrlPart (getSelectionAsImageDataUrl host editor) "high";
                  TextPart "Turn this into a single html file using tailwind.";
                  TextPart (getSelectionAsText host editor) ] ++ fourth)%list |} ]
    /\ ((exists prior : string,
           getContentOfPreviousResponse editor = Normal (Some prior) /\
           prior <> "" /\ fourth = [TextPart prior])
        \/ ((getContentOfPreviousResponse editor = Normal None \/
             getContentOfPreviousResponse editor = Normal (Some "")) /\
            fourth = [])).
Proof.
  intros Hcall.
  run_cases host editor; try (apply elem_of_nil in Hcall; contradiction);
    apply fetch_in_log in Hcall as (_ & -> & _); try reflexivity;
    cbn [messages completionRequest];
    eauto using buildPromptForOpenAi_shape.
Qed.

Lemma prompt_shape_witness :
  exists fourth : list MessagePart,
    messages
      (completionRequest
         (promptWith (Fixtures.hostReplying (Resolves Fixtures.page))
            Fixtures.iteration (Some "<!DOCTYPE html><html>v1</html>")))
    = [ {| role := "system"; content := PlainContent systemPrompt |};
        {| role := "user";
           content :=
             PartsContent
               ([ ImageUrlPart "data:image/png;base64,AAAA" "high";
                  TextPart "Turn this into a single html file using tailwind.";
                  TextPart "make it blue" ] ++ fourth)%list |} ].
Proof.
  destruct (prompt_shape
              (Fixtures.hostReplying (Resolves Fixtures.page))
              Fixtures.iteration None
              (completionRequest
                 (promptWith (Fixtures.hostReplying (Resolves Fixtures.page))
                    Fixtures.iteration (Some "<!DOCTYPE html><html>v1</html>")))
              (Resolves Fixtures.page)
              ltac:(apply list_elem_of_further, list_elem_of_here))
    as (fourth & Hmessages & _).
  exists fourth. exact Hmessages.
Defined.

(** C10.  With exactly one response shape directly selected and its html
    the empty string: the lookup returns the empty string without
    throwing; the prompt is built, with the three fixed user parts and no
    fourth; when the bounds are reported the invocation goes on to create
    the placeholder and make the remote call with that prompt; any canvas
    without a selected response shape, with the same image and the same
    gathered text, gets the same prompt; and if that canvas also has the
    same shapes, a non-empty selection and the same bounds, its invocation
    completes the same way, with the same effects and the same shapes
    afterwards. *)
Theorem empty_prior_response_omitted (host : Host) (editor : Editor)
    (previous : TLShape) :
  List.filter isResponse (getSelectedShapes editor) = [previous] ->
  html (props previous) = "" ->
  let prompt :=
    [ {| role := "system"; content := PlainContent systemPrompt |};
      {| role := "user";
         content :=
           PartsContent
             [ ImageUrlPart (getSelectionAsImageDataUrl host editor) "high";
               TextPart "Turn this into a single html file using tailwind.";
               TextPart (getSelectionAsText host editor) ] |} ] in
  getContentOfPreviousResponse editor = Normal (Some "") /\
  buildPromptForOpenAi host editor = Normal prompt /\
  (forall selectionBounds : Box,
     getSelectionPageBounds host editor = Some selectionBounds ->
     exists (result : FetchResult) (last : Event),
       log (invoke host editor).2 =
         [EvCreateShape (placeholderPartial (createShapeId host) selectionBounds);
          EvFetch (openai_key_risky_but_cool host) (completionRequest prompt)
            result;
          last]) /\
  (forall other : Editor,
     List.filter isResponse (getSelectedShapes other) = [] ->
     getSelectionAsImageDataUrl host other
       = getSelectionAsImageDataUrl host editor ->
     getSelectionAsText host other = getSelectionAsText host editor ->
     buildPromptForOpenAi host other = buildPromptForOpenAi host editor /\
     (store other = store editor ->
      getSelectedShapes other <> [] ->
      getSelectionPageBounds host other = getSelectionPageBounds host editor ->
      (invoke host other).1 = (invoke host editor).1 /\
      log (invoke host other).2 = log (invoke host editor).2 /\
      store (canvas (invoke host other).2)
        = store (canvas (invoke host editor).2))).
Proof.
  intros Hone Hempty prompt.
  pose proof (getContentOfPreviousResponse_one editor previous Hone) as Hlookup.
  rewrite Hempty in Hlookup.
  pose proof (buildPromptForOpenAi_returns host editor _ Hlookup) as Hprompt.
  cbn [Js.truthy String.eqb negb] in Hprompt.
  assert (promptWith host editor None = prompt) as Hsame
    by (unfold promptWith; rewrite app_nil_r; reflexivity).
  rewrite Hsame in Hprompt.
  assert (getSelectedShapes editor <> []) as Hsel
    by (apply (filter_nonempty isResponse); rewrite Hone; discriminate).
  split; [assumption|]. split; [assumption|]. split.
  - intros selectionBounds Hbounds.
    destruct (invoke_reaches_call host editor prompt selectionBounds
                Hsel Hprompt Hbounds) as (result & last & Hlog & _).
    eauto.
  - intros other Hnone Himage Htext.
    assert (buildPromptForOpenAi host other = buildPromptForOpenAi host editor)
      as Hagree.
    { rewrite Hprompt.
      rewrite (buildPromptForOpenAi_returns host other None
                 (getContentOfPreviousResponse_none other Hnone)).
      cbn [Js.truthy]. unfold promptWith. rewrite Himage, Htext, app_nil_r.
      reflexivity. }
    split; [assumption|].
    intros Hstore Hother Hbounds.
    apply invoke_determined; auto. tauto.
Qed.

Lemma empty_prior_response_omitted_witness :
  buildPromptForOpenAi (Fixtures.hostReplying (Resolves Fixtures.page))
    Fixtures.withPending
  = Normal
      [ {| role := "system"; content := PlainContent systemPrompt |};
        {| role := "user";
           content :=
             PartsContent
               [ ImageUrlPart "data:image/png;base64,AAAA" "high";
                 TextPart "Turn this into a single html file using tailwind.";
                 TextPart "Hello" ] |} ].
Proof.
  exact (proj1 (proj2 (empty_prior_response_omitted
           (Fixtures.hostReplying (Resolves Fixtures.page))
           Fixtures.withPending Fixtures.pending eq_refl eq_refl))).
Defined.

(** ** The placeholder *)

(** C9, as stated, fails: two response shapes are selected and the bounds
    of the selection are reported, yet the invocation throws while it
    builds the prompt; nothing is logged and no shape exists under the
    identifier a placeholder would have had. *)
Lemma placeholder_two_responses_counterexample :
  length (getSelectedShapes Fixtures.twoResponses) = 2%nat /\
  getSelectionPageBounds (Fixtures.hostReplying (Resolves Fixtures.page))
    Fixtures.twoResponses = Some Fixtures.bounds /\
  (invoke (Fixtures.hostReplying (Resolves Fixtures.page))
     Fixtures.twoResponses).1 = Throw MultiplePriorResponsesError /\
  log (invoke (Fixtures.hostReplying (Resolves Fixtures.page))
         Fixtures.twoResponses).2 = [] /\
  store (canvas (invoke (Fixtures.hostReplying (Resolves Fixtures.page))
                   Fixtures.twoResponses).2)
    !! createShapeId (Fixtures.hostReplying (Resolves Fixtures.page)) = None.
Proof. repeat split; reflexivity. Qed.

(** C9, amended.  For every invocation with a non-empty selection whose
    bounds are reported and with at most one response shape directly
    selected (so that the prompt is built): the first effect is the
    creation of a response shape at [(maxX + 60, y)] of the bounds, with no
    html passed, so that the shape on the canvas has the empty html it is
    created with; the remote call is the second effect, and the third and
    last is an update or the deletion of that shape.  Bounds with
    [maxX = 100] and [y = 50] put the placeholder at [(160, 50)]. *)
Theorem placeholder_creation (host : Host) (editor : Editor)
    (selectionBounds : Box) :
  getSelectedShapes editor <> [] ->
  getSelectionPageBounds host editor = Some selectionBounds ->
  (length (List.filter isResponse (getSelectedShapes editor)) <= 1)%nat ->
  let placeholder :=
    {| partial_id := createShapeId host;
       partial_type := "response";
       partial_x := Some (maxX selectionBounds + 60)%float;
       partial_y := Some (box_y selectionBounds);
       partial_html := None |} in
  (exists (apiKey : option string) (request : CompletionRequest)
          (result : FetchResult) (last : Event),
     log (invoke host editor).2 =
       [EvCreateShape placeholder; EvFetch apiKey request result; last] /\
     (last = EvDeleteShape (createShapeId host) \/
      exists html,
        last = EvUpdateShape {| partial_id := createShapeId host;
                                partial_type := "response";
                                partial_x := None;
                                partial_y := None;
                                partial_html := Some html |})) /\
  store (createShape_store placeholder editor) !! createShapeId host =
    Some {| shape_id := createShapeId host;
            shape_type := "response";
            shape_x := (maxX selectionBounds + 60)%float;
            shape_y := box_y selectionBounds;
            props := {| text := ""; html := "" |} |} /\
  (maxX selectionBounds = 100%float ->
   box_y selectionBounds = 50%float ->
   partial_x placeholder = Some 160%float /\
   partial_y placeholder = Some 50%float).
Proof.
  intros Hsel Hbounds Hfew placeholder.
  assert (exists prompt, buildPromptForOpenAi host editor = Normal prompt)
    as (prompt & Hprompt).
  { destruct (List.filter isResponse (getSelectedShapes editor))
      as [|previous [|? ?]] eqn:Hresponses.
    - eexists. apply buildPromptForOpenAi_returns.
      apply getContentOfPreviousResponse_none. assumption.
    - eexists. apply buildPromptForOpenAi_returns.
      apply (getContentOfPreviousResponse_one _ previous). assumption.
    - cbn in Hfew. lia. }
  destruct (invoke_reaches_call host editor prompt selectionBounds
              Hsel Hprompt Hbounds) as (result & last & Hlog & Hlast).
  split; [|split].
  - exists (openai_key_risky_but_cool host), (completionRequest prompt),
      result, last.
    split; assumption.
  - cbn. apply lookup_insert_eq.
  - intros HmaxX Hy. subst placeholder. cbn [partial_x partial_y].
    rewrite HmaxX, Hy. split; reflexivity.
Qed.

Lemma placeholder_creation_witness :
  exists rest : list Event,
    log (invoke (Fixtures.hostReplying (Resolves Fixtures.page))
           Fixtures.sketch).2
    = EvCreateShape {| partial_id := "shape:new";
                       partial_type := "response";
                       partial_x := Some 160%float;
                       partial_y := Some 50%float;
                       partial_html := None |} :: rest.
Proof.
  destruct (placeholder_creation
              (Fixtures.hostReplying (Resolves Fixtures.page))
              Fixtures.sketch Fixtures.bounds
              ltac:(discriminate) eq_refl ltac:(vm_compute; lia))
    as ((apiKey & request & result & last & Hlog & _) & _ & _).
  exists [EvFetch apiKey request result; last]. exact Hlog.
Defined.

(** ** Gathered text *)

Section GatheredText.

Variable host : Host.

Lemma allowListed_spec (shape : TLShape) :
  allowListed shape =
    String.eqb (shape_type shape) "text"
    || String.eqb (shape_type shape) "geo"
    || String.eqb (shape_type shape) "arrow"
    || String.eqb (shape_type shape) "note".
Proof.
  unfold allowListed, allowList.
  destruct (String.eqb_spec (shape_type shape) "text") as [->|Htext];
    [reflexivity|].
  destruct (String.eqb_spec (shape_type shape) "geo") as [->|Hgeo];
    [reflexivity|].
  destruct (String.eqb_spec (shape_type shape) "arrow") as [->|Harrow];
    [reflexivity|].
  destruct (String.eqb_spec (shape_type shape) "note") as [->|Hnote];
    [reflexivity|].
  apply bool_decide_eq_false. rewrite !elem_of_cons, elem_of_nil. tauto.
Qed.

(** The [map]/[filter] pipeline of the source computes the entries of the
    specification. *)
Lemma texts_are_entries (editor : Editor) (ids : list TLShapeId) :
  map (default "")
    (List.filter notNullNorEmpty (map (textOfShapeId editor) ids))
  = gatheredEntries editor ids.
Proof.
  unfold gatheredEntries.
  induction ids as [|id ids IH]; [reflexivity|].
  assert (textOfShapeId editor id =
            match getShape editor id with
            | Some shape =>
                if allowListed shape then Some (text (props shape)) else None
            | None => None
            end) as Hid.
  { unfold textOfShapeId.
    destruct (getShape editor id); [rewrite allowListed_spec|]; reflexivity. }
  cbn [map omap list_omap]. rewrite Hid.
  destruct (getShape editor id) as [shape|]; [|exact IH].
  cbn [List.filter]. destruct (allowListed shape); [|exact IH].
  cbn [notNullNorEmpty map List.filter].
  destruct (String.eqb (text (props shape)) ""); cbn [negb map default];
    rewrite IH; reflexivity.
Qed.

Lemma entries_nonempty (editor : Editor) (ids : list TLShapeId) :
  Forall (fun entry => entry <> "") (gatheredEntries editor ids).
Proof.
  unfold gatheredEntries. apply List.Forall_forall. intros entry Hin.
  apply List.filter_In in Hin as [_ Hne].
  destruct (String.eqb_spec entry ""); [discriminate|assumption].
Qed.

Lemma append_assoc (a b c : string) : (a ++ b) ++ c = a ++ b ++ c.
Proof.
  induction a as [|x a IH]; [reflexivity|].
  change (String x ((a ++ b) ++ c) = String x (a ++ b ++ c)).
  rewrite IH. reflexivity.
Qed.

(** Joining puts separators between the parts only: the result ends with
    the last part. *)
Lemma concat_ends_with_last (sep : string) (parts : list string) :
  exists before : string,
    String.concat sep parts = before ++ List.last parts "".
Proof.
  induction parts as [|part parts [before IH]].
  - exists "". reflexivity.
  - destruct parts as [|next parts].
    + exists "". reflexivity.
    + exists (part ++ sep ++ before).
      change (String.concat sep (part :: next :: parts))
        with (part ++ sep ++ String.concat sep (next :: parts)).
      change (List.last (part :: next :: parts) "")
        with (List.last (next :: parts) "").
      rewrite IH, !append_assoc. reflexivity.
Qed.

Lemma append_length (a b : string) :
  String.length (a ++ b) = (String.length a + String.length b)%nat.
Proof.
  induction a as [|x a IH]; [reflexivity|].
  change (S (String.length (a ++ b))
          = S (String.length a + String.length b)).
  rewrite IH. reflexivity.
Qed.

(** A join of [n] parts holds the parts and [n - 1] separators. *)
Lemma concat_length (sep : string) (parts : list string) :
  String.length (String.concat sep parts) =
  (list_sum (map String.length parts)
   + String.length sep * (length parts - 1))%nat.
Proof.
  induction parts as [|part parts IH].
  { change (String.length (String.concat sep [])) with 0%nat.
    cbn [map list_sum fold_right length]. lia. }
  destruct parts as [|next parts].
  - cbn [String.concat map list_sum fold_right length]. lia.
  - change (String.concat sep (part :: next :: parts))
      with (part ++ sep ++ String.concat sep (next :: parts)).
    rewrite !append_length, IH.
    cbn [map list_sum fold_right length]. lia.
Qed.

(** C8.  The gathered text is the join, with the line feed as separator,
    of the texts of the descendants of the selection, taken in the
    iteration order of the descendant identifiers, that resolve to a shape
    of an allow-listed kind with a non-empty text.  Every joined entry is
    non-empty, so no blank line comes from a skipped shape; the text
    ends with its last entry, and its length is that of the entries plus
    one line feed between consecutive entries: none is added at the
    end. *)
Theorem gathered_text_joined (editor : Editor) :
  getSelectionAsText host editor = gatheredText_spec host editor /\
  getSelectionAsText host editor =
    String.concat Js.newline
      (List.filter (fun t => negb (String.eqb t ""))
         (map (fun shape => text (props shape))
            (List.filter
               (fun shape => bool_decide
                  (shape_type shape ∈ ["text"; "geo"; "arrow"; "note"]))
               (omap (getShape editor)
                  (getShapeAndDescendantIds host editor
                     (getSelectedShapeIds editor)))))) /\
  Forall (fun entry => entry <> "")
    (gatheredEntries editor
       (getShapeAndDescendantIds host editor (getSelectedShapeIds editor))) /\
  (exists before : string,
     getSelectionAsText host editor =
       before ++ List.last
                   (gatheredEntries editor
                      (getShapeAndDescendantIds host editor
                         (getSelectedShapeIds editor))) "") /\
  String.length (getSelectionAsText host editor) =
    (list_sum
       (map String.length
          (gatheredEntries editor
             (getShapeAndDescendantIds host editor
                (getSelectedShapeIds editor))))
     + (length
          (gatheredEntries editor
             (getShapeAndDescendantIds host editor
                (getSelectedShapeIds editor))) - 1))%nat.
Proof.
  assert (getSelectionAsText host editor = gatheredText_spec host editor) as H.
  { unfold getSelectionAsText, gatheredText_spec, Js.join.
    rewrite texts_are_entries. reflexivity. }
  split; [assumption|]. split; [assumption|].
  split; [apply entries_nonempty|].
  rewrite H. split; [apply concat_ends_with_last|].
  unfold gatheredText_spec. rewrite concat_length.
  change (String.length Js.newline) with 1%nat. lia.
Qed.

End GatheredText.

(** The example of the specification: a text shape reading "Hello" and a
    geometric shape without text give "Hello". *)
Example gathered_text_hello :
  getSelectionAsText (Fixtures.hostReplying (Resolves Fixtures.page))
    Fixtures.sketch = "Hello".
Proof. reflexivity. Qed.

(** Entries keep the order of the descendant identifiers, one per line. *)
Example gathered_text_two_lines :
  getSelectionAsText (Fixtures.hostReplying (Resolves Fixtures.page))
    (Fixtures.canvasOf Fixtures.everything
       ["shape:sticky"; "shape:box"; "shape:earlier"; "shape:hello"])
  = "make it blue" ++ Js.newline ++ "Hello".
Proof. reflexivity. Qed.

(** * Further properties of the program *)

(** ** Where an invocation stops *)

Section Outcomes.

Variable host : Host.

Lemma buildPromptForOpenAi_few (editor : Editor) :
  (length (List.filter isResponse (getSelectedShapes editor)) <= 1)%nat ->
  exists prompt, buildPromptForOpenAi host editor = Normal prompt.
Proof.
  intros Hfew.
  destruct (List.filter isResponse (getSelectedShapes editor))
    as [|previous [|? ?]] eqn:Hresponses.
  - eexists. apply buildPromptForOpenAi_returns.
    apply getContentOfPreviousResponse_none. assumption.
  - eexists. apply buildPromptForOpenAi_returns.
    apply (getContentOfPreviousResponse_one _ previous). assumption.
  - cbn in Hfew. lia.
Qed.

Lemma buildPromptForOpenAi_built_few (editor : Editor)
    (prompt : list GPT4VMessage) :
  buildPromptForOpenAi host editor = Normal prompt ->
  (length (List.filter isResponse (getSelectedShapes editor)) <= 1)%nat.
Proof.
  intros Hprompt.
  destruct (Nat.le_gt_cases
              (length (List.filter isResponse (getSelectedShapes editor))) 1)
    as [|Hmany]; [assumption|].
  rewrite (buildPromptForOpenAi_throws host editor _
             (getContentOfPreviousResponse_many editor Hmany)) in Hprompt.
  discriminate.
Qed.

(** X1.  With something selected, at most one response shape among it and
    no bounds reported for the selection, the invocation throws the error
    "No selection bounds"; the canvas is as it was and nothing was created
    or sent. *)
Theorem missing_bounds_fails_untouched (editor : Editor) :
  getSelectedShapes editor <> [] ->
  (length (List.filter isResponse (getSelectedShapes editor)) <= 1)%nat ->
  getSelectionPageBounds host editor = None ->
  (invoke host editor).1 = Throw (JsError "No selection bounds") /\
  canvas (invoke host editor).2 = editor /\
  log (invoke host editor).2 = [].
Proof.
  intros Hsel Hfew Hbounds.
  destruct (buildPromptForOpenAi_few editor Hfew) as (prompt & Hprompt).
  run_cases host editor; try congruence. auto.
Qed.

(** X2.  The remote call is made exactly when something is selected, at
    most one response shape is among the selection and the canvas reports
    bounds for it. *)
Theorem remote_call_condition (editor : Editor) :
  (exists apiKey request result,
     EvFetch apiKey request result ∈ log (invoke host editor).2) <->
  (getSelectedShapes editor <> [] /\
   (length (List.filter isResponse (getSelectedShapes editor)) <= 1)%nat /\
   is_Some (getSelectionPageBounds host editor)).
Proof.
  split.
  - intros (apiKey & request & result & Hcall).
    run_cases host editor; try (apply elem_of_nil in Hcall; contradiction);
      (split; [assumption|]); split; eauto using buildPromptForOpenAi_built_few.
  - intros (Hsel & Hfew & (selectionBounds & Hbounds)).
    destruct (buildPromptForOpenAi_few editor Hfew) as (prompt & Hprompt).
    destruct (invoke_reaches_call host editor prompt selectionBounds
                Hsel Hprompt Hbounds) as (result & last & Hlog & _).
    exists (openai_key_risky_but_cool host), (completionRequest prompt), result.
    rewrite Hlog. apply list_elem_of_further, list_elem_of_here.
Qed.

(** X3.  The effects of an invocation are none at all, and then it throws,
    or exactly three: the creation of a response shape, one remote call,
    and then either an update of that shape's html, and the invocation
    returns, or the deletion of that shape, and the invocation throws.
    There is never a second call, and no update after a deletion. *)
Theorem effects_shape (editor : Editor) :
  (log (invoke host editor).2 = [] /\
   exists e, (invoke host editor).1 = Throw e) \/
  (exists (selectionBounds : Box) (request : CompletionRequest)
          (result : FetchResult),
     let id := createShapeId host in
     getSelectionPageBounds host editor = Some selectionBounds /\
     ((exists html,
         log (invoke host editor).2 =
           [EvCreateShape (placeholderPartial id selectionBounds);
            EvFetch (openai_key_risky_but_cool host) request result;
            EvUpdateShape (htmlUpdate id html)] /\
         (invoke host editor).1 = Normal tt)
      \/ (exists e,
            log (invoke host editor).2 =
              [EvCreateShape (placeholderPartial id selectionBounds);
               EvFetch (openai_key_risky_but_cool host) request result;
               EvDeleteShape id] /\
            (invoke host editor).1 = Throw e))).
Proof.
  run_cases host editor; eauto 10.
Qed.

(** X4.  Every remote call of an invocation asks for the model
    "gpt-4-vision-preview" with at most 4096 tokens at temperature 0, passes
    the key read from the key input of the page (or [undefined] when there
    is none), and the outcome logged is the outcome of that call. *)
Theorem request_parameters (editor : Editor) (apiKey : option string)
    (request : CompletionRequest) (result : FetchResult) :
  EvFetch apiKey request result ∈ log (invoke host editor).2 ->
  model request = "gpt-4-vision-preview" /\
  max_tokens request = 4096%float /\
  temperature request = 0%float /\
  apiKey = openai_key_risky_but_cool host /\
  result = fetchFromOpenAi host apiKey request.
Proof.
  intros Hcall.
  run_cases host editor; try (apply elem_of_nil in Hcall; contradiction);
    apply fetch_in_log in Hcall as (-> & -> & Hresult); try reflexivity;
    repeat split; congruence.
Qed.

End Outcomes.

Lemma missing_bounds_fails_untouched_witness :
  invoke (Fixtures.hostWithoutBounds (Resolves Fixtures.page)) Fixtures.sketch
  = (Throw (JsError "No selection bounds"),
     {| canvas := Fixtures.sketch; log := [] |}).
Proof.
  destruct (missing_bounds_fails_untouched
              (Fixtures.hostWithoutBounds (Resolves Fixtures.page))
              Fixtures.sketch ltac:(discriminate) ltac:(vm_compute; lia)
              eq_refl) as (Hthrown & Hcanvas & Hlog).
  destruct (invoke _ Fixtures.sketch) as [c [ed events]].
  cbn in Hthrown, Hcanvas, Hlog. subst. reflexivity.
Defined.

Lemma request_parameters_witness :
  temperature
    (completionRequest
       (promptWith (Fixtures.hostReplying (Resolves Fixtures.page))
          Fixtures.sketch None)) = 0%float.
Proof.
  exact (proj1 (proj2 (proj2 (request_parameters
           (Fixtures.hostReplying (Resolves Fixtures.page)) Fixtures.sketch
           None _ (Resolves Fixtures.page)
           ltac:(apply list_elem_of_further, list_elem_of_here))))).
Defined.

(** ** What an invocation leaves on the canvas *)

Section Canvas.

Variable host : Host.

Lemma updateShape_store_selection (update : TLShapePartial) (editor : Editor) :
  selectedShapeIds (updateShape_store update editor) = selectedShapeIds editor.
Proof.
  unfold updateShape_store. destruct (store editor !! partial_id update);
    reflexivity.
Qed.

Lemma updateShape_store_other (update : TLShapePartial) (editor : Editor)
    (id : TLShapeId) :
  id <> partial_id update ->
  store (updateShape_store update editor) !! id = store editor !! id.
Proof.
  intros Hne. unfold updateShape_store.
  destruct (store editor !! partial_id update); [|reflexivity].
  cbn [store]. apply lookup_insert_ne. congruence.
Qed.

(** The selection is never touched. *)
Lemma invoke_selection (editor : Editor) :
  selectedShapeIds (canvas (invoke host editor).2) = selectedShapeIds editor.
Proof.
  run_cases host editor; try reflexivity.
  rewrite updateShape_store_selection. reflexivity.
Qed.

(** Nor is any shape but the one under the new identifier. *)
Lemma invoke_other_shapes (editor : Editor) (id : TLShapeId) :
  id <> createShapeId host ->
  store (canvas (invoke host editor).2) !! id = store editor !! id.
Proof.
  intros Hne. run_cases host editor; try reflexivity.
  - cbn [deleteShape_store createShape_store store placeholderPartial
         partial_id].
    rewrite lookup_delete_ne, lookup_insert_ne by congruence. reflexivity.
  - rewrite updateShape_store_other by (cbn; congruence).
    cbn [createShape_store store placeholderPartial partial_id].
    apply lookup_insert_ne. congruence.
Qed.

(** X5.  Whatever the outcome, an invocation leaves the selection as it was
    and reads back every shape other than the one under the newly
    allocated identifier exactly as before: no other shape is created,
    changed or deleted. *)
Theorem other_shapes_untouched (editor : Editor) :
  selectedShapeIds (canvas (invoke host editor).2) = selectedShapeIds editor /\
  forall id : TLShapeId,
    id <> createShapeId host ->
    getShape (canvas (invoke host editor).2) id = getShape editor id.
Proof.
  split; [apply invoke_selection|].
  intros id Hne. apply invoke_other_shapes. assumption.
Qed.

(** X6.  When the newly allocated identifier names no shape yet, an
    invocation that throws, for whatever reason and at whatever point,
    leaves the canvas exactly as it found it. *)
Theorem failed_invocation_restores_canvas (editor : Editor) (e : Thrown) :
  store editor !! createShapeId host = None ->
  (invoke host editor).1 = Throw e ->
  canvas (invoke host editor).2 = editor.
Proof.
  intros Hfresh Hthrown.
  run_cases host editor; try reflexivity; [|discriminate].
  unfold deleteShape_store, createShape_store.
  cbn [store selectedShapeIds placeholderPartial partial_id].
  rewrite delete_insert_eq, delete_id by assumption.
  destruct editor; reflexivity.
Qed.

(** X7.  When the newly allocated identifier names no shape yet, an
    invocation that returns has added exactly one shape to the canvas: a
    response shape under that identifier, at [(maxX + 60, y)] of the
    selection bounds, whose html is the extraction from the first choice of
    the reply. *)
Theorem successful_invocation_adds_one_shape (editor : Editor) :
  store editor !! createShapeId host = None ->
  (invoke host editor).1 = Normal tt ->
  exists (selectionBounds : Box) (request : CompletionRequest)
         (response : GPT4VCompletionResponse) (choice : Choice)
         (rest : list Choice),
    getSelectionPageBounds host editor = Some selectionBounds /\
    fetchFromOpenAi host (openai_key_risky_but_cool host) request
      = Resolves response /\
    choices response = choice :: rest /\
    store (canvas (invoke host editor).2) =
      <[createShapeId host :=
          {| shape_id := createShapeId host;
             shape_type := "response";
             shape_x := (maxX selectionBounds + 60)%float;
             shape_y := box_y selectionBounds;
             props :=
               {| text := "";
                  html := extractHtml
                            (message_content (choice_message choice)) |} |}]>
        (store editor) /\
    size (store (canvas (invoke host editor).2)) = S (size (store editor)).
Proof.
  intros Hfresh Hreturned.
  run_cases host editor; try discriminate.
  exists selectionBounds, (completionRequest prompt), response, choice, rest.
  split; [assumption|]. split; [assumption|]. split; [assumption|].
  rewrite store_updated_after_created by reflexivity.
  cbn [placeholderPartial partial_id]. rewrite insert_insert_eq.
  split; [reflexivity|].
  apply map_size_insert_None. assumption.
Qed.

(** X8.  A reply without error field and with at least one choice is
    always committed, whatever its content: the invocation returns, the
    third effect is the update with the extraction from the first choice,
    the other choices are not read, and the shape under the new identifier
    ends as a response shape with that html. *)
Theorem any_content_is_committed (editor : Editor)
    (apiKey : option string) (request : CompletionRequest)
    (response : GPT4VCompletionResponse) (choice : Choice)
    (rest : list Choice) :
  EvFetch apiKey request (Resolves response) ∈ log (invoke host editor).2 ->
  error response = None ->
  choices response = choice :: rest ->
  (invoke host editor).1 = Normal tt /\
  last (log (invoke host editor).2) =
    Some (EvUpdateShape
            {| partial_id := createShapeId host;
               partial_type := "response";
               partial_x := None;
               partial_y := None;
               partial_html :=
                 Some (extractHtml
                         (message_content (choice_message choice))) |}) /\
  exists shape,
    getShape (canvas (invoke host editor).2) (createShapeId host)
      = Some shape /\
    shape_type shape = "response" /\
    html (props shape) = extractHtml (message_content (choice_message choice)).
Proof.
  intros Hcall Herr Hchoices.
  run_cases host editor; try (apply elem_of_nil in Hcall; contradiction).
  - apply fetch_in_log in Hcall as (_ & _ & Hresult); [|reflexivity].
    match goal with H : RaisedInTry _ _ |- _ =>
      rewrite <- Hresult in H; inversion H; subst end; congruence.
  - apply fetch_in_log in Hcall as (_ & _ & Hresult); [|reflexivity].
    injection Hresult as ->.
    assert (choice0 = choice) as -> by congruence.
    split; [reflexivity|]. split; [reflexivity|].
    eexists. split.
    + unfold getShape.
      apply (updated_after_created
               (placeholderPartial (createShapeId host) selectionBounds)).
      reflexivity.
    + split; reflexivity.
Qed.

(** X9.  A reply with neither error field nor any choice makes the
    extraction itself throw, a type error and not an error carrying a
    message of the remote service; the placeholder is deleted and nothing
    was committed. *)
Theorem empty_choices_roll_back (editor : Editor)
    (apiKey : option string) (request : CompletionRequest)
    (response : GPT4VCompletionResponse) :
  EvFetch apiKey request (Resolves response) ∈ log (invoke host editor).2 ->
  error response = None ->
  choices response = [] ->
  (invoke host editor).1 = Throw JsTypeError /\
  last (log (invoke host editor).2) = Some (EvDeleteShape (createShapeId host)) /\
  getShape (canvas (invoke host editor).2) (createShapeId host) = None /\
  (forall update, EvUpdateShape update ∉ log (invoke host editor).2).
Proof.
  intros Hcall Herr Hchoices.
  run_cases host editor; try (apply elem_of_nil in Hcall; contradiction).
  - apply fetch_in_log in Hcall as (_ & _ & Hresult); [|reflexivity].
    match goal with H : RaisedInTry _ _ |- _ =>
      rewrite <- Hresult in H; inversion H; subst end; [congruence|].
    split; [reflexivity|]. split; [reflexivity|]. split.
    + unfold getShape. rewrite deleted_after_created. apply lookup_delete_eq.
    + intros update. rewrite !elem_of_cons, elem_of_nil.
      intros [H'|[H'|[H'|[]]]]; discriminate.
  - apply fetch_in_log in Hcall as (_ & _ & Hresult); [|reflexivity].
    congruence.
Qed.

Lemma getSelectedShapes_agree (editor other : Editor) :
  selectedShapeIds other = selectedShapeIds editor ->
  (forall id, id ∈ selectedShapeIds editor ->
              store other !! id = store editor !! id) ->
  getSelectedShapes other = getSelectedShapes editor.
Proof.
  unfold getSelectedShapes, getShape. intros -> Hagree.
  induction (selectedShapeIds editor) as [|id ids IH]; [reflexivity|].
  cbn [omap list_omap]. rewrite Hagree by apply list_elem_of_here.
  rewrite IH; [reflexivity|].
  intros id' Hin. apply Hagree. apply list_elem_of_further. assumption.
Qed.

(** X10.  When the newly allocated identifier is not among the selected
    ones, an invocation changes neither the selected shapes nor what the
    lookup of the previous response returns: the shape it creates does not
    become the previous response of the next invocation by itself. *)
Theorem selection_reads_unchanged (editor : Editor) :
  createShapeId host ∉ selectedShapeIds editor ->
  getSelectedShapes (canvas (invoke host editor).2) = getSelectedShapes editor /\
  getContentOfPreviousResponse (canvas (invoke host editor).2)
    = getContentOfPreviousResponse editor.
Proof.
  intros Hnew.
  assert (getSelectedShapes (canvas (invoke host editor).2)
          = getSelectedShapes editor) as Hsame.
  { apply getSelectedShapes_agree; [apply invoke_selection|].
    intros id Hin. apply invoke_other_shapes. congruence. }
  split; [assumption|].
  unfold getContentOfPreviousResponse. rewrite Hsame. reflexivity.
Qed.

(** X11.  What one invocation commits is what the next one reads back:
    after an invocation that returned, on a canvas with the same shapes on
    which the new shape alone is selected, the lookup of the previous
    response returns the committed html, and the prompt carries it as the
    fourth user part exactly when it is not empty. *)
Theorem committed_html_is_next_prior (editor next : Editor)
    (apiKey : option string) (request : CompletionRequest)
    (response : GPT4VCompletionResponse) (choice : Choice)
    (rest : list Choice) :
  EvFetch apiKey request (Resolves response) ∈ log (invoke host editor).2 ->
  error response = None ->
  choices response = choice :: rest ->
  store next = store (canvas (invoke host editor).2) ->
  selectedShapeIds next = [createShapeId host] ->
  let committed := extractHtml (message_content (choice_message choice)) in
  getContentOfPreviousResponse next = Normal (Some committed) /\
  buildPromptForOpenAi host next =
    Normal (promptWith host next
              (if String.eqb committed "" then None else Some committed)).
Proof.
  intros Hcall Herr Hchoices Hstore Hselected committed.
  assert (getContentOfPreviousResponse next = Normal (Some committed))
    as Hlookup.
  { run_cases host editor; try (apply elem_of_nil in Hcall; contradiction).
    - apply fetch_in_log in Hcall as (_ & _ & Hresult); [|reflexivity].
      match goal with H : RaisedInTry _ _ |- _ =>
        rewrite <- Hresult in H; inversion H; subst end; congruence.
    - apply fetch_in_log in Hcall as (_ & _ & Hresult); [|reflexivity].
      injection Hresult as ->.
      assert (choice0 = choice) as -> by congruence.
      unfold getContentOfPreviousResponse, getSelectedShapes, getShape.
      rewrite Hselected, Hstore. cbn [omap list_omap].
      rewrite (updated_after_created
                 (placeholderPartial (createShapeId host) selectionBounds))
        by reflexivity.
      reflexivity. }
  split; [assumption|].
  rewrite (buildPromptForOpenAi_returns host next _ Hlookup).
  cbn [Js.truthy]. destruct (String.eqb committed ""); reflexivity.
Qed.

End Canvas.

(** ** Extraction from replies that are not a document *)

Section Malformed.

Local Open Scope nat_scope.

(** [slice] from [-1]: the last character when the end reaches the end of a
    non-empty string, nothing otherwise. *)
Lemma slice_from_last (s : string) (b : Z) :
  (0 <= b)%Z ->
  Js.slice s (-1) b =
  if (Z.of_nat (String.length s) <=? b)%Z && (1 <=? String.length s)
  then String.substring (String.length s - 1) 1 s
  else "".
Proof.
  intros Hb. unfold Js.slice, Js.relativeIndex.
  change (-1 <? 0)%Z with true. cbn [andb].
  destruct (Z.ltb_spec b 0); [lia|].
  destruct (Z.leb_spec (Z.of_nat (String.length s)) b);
    destruct (Nat.leb_spec 1 (String.length s)); cbn [andb].
  - rewrite Z.min_r, Z.max_l by lia.
    destruct (Z.leb_spec (Z.of_nat (String.length s))
                (Z.of_nat (String.length s) + -1)); [lia|].
    f_equal; lia.
  - rewrite Z.min_r, Z.max_r by lia.
    destruct (Z.leb_spec (Z.of_nat (String.length s)) 0); [reflexivity|lia].
  - rewrite Z.min_l, Z.max_l by lia.
    destruct (Z.leb_spec b (Z.of_nat (String.length s) + -1));
      [reflexivity|lia].
  - rewrite Z.min_l, Z.max_r by lia.
    destruct (Z.leb_spec b 0); [reflexivity|lia].
Qed.

Lemma indexOf_lower_bound (message marker : string) :
  (-1 <= Js.indexOf message marker)%Z.
Proof.
  unfold Js.indexOf. destruct (String.index 0 marker message); lia.
Qed.

Lemma substring_at_most (s : string) (n m : nat) :
  String.length (String.substring n m s) <= m.
Proof.
  revert n m. induction s as [|c s IH]; intros n m.
  - rewrite substring_empty. cbn. lia.
  - destruct n as [|n].
    + destruct m as [|m]; [cbn; lia|].
      cbn. specialize (IH 0 m). lia.
    + apply (IH n m).
Qed.

(** X12.  A first choice without the doctype marker yields no document:
    the extracted html has at most one character, being empty or the last
    character of the content.  In particular, with a closing tag in the
    content, it is [">"] when the first closing tag ends the content and
    empty otherwise. *)
Theorem extraction_without_doctype (message : string) :
  String.index 0 DOCTYPE message = None ->
  String.length (extractHtml message) <= 1 /\
  (extractHtml message = "" \/
   extractHtml message =
     String.substring (String.length message - 1) 1 message) /\
  (forall e : nat,
     String.index 0 CLOSING_TAG message = Some e ->
     (e + String.length CLOSING_TAG < String.length message ->
      extractHtml message = "") /\
     (e + String.length CLOSING_TAG = String.length message ->
      extractHtml message = ">")).
Proof.
  intros Hnone.
  assert (extractHtml message =
          if (Z.of_nat (String.length message)
                <=? Js.indexOf message CLOSING_TAG + 7)%Z
             && (1 <=? String.length message)
          then String.substring (String.length message - 1) 1 message
          else "") as Hhtml.
  { unfold extractHtml. unfold Js.indexOf at 1. rewrite Hnone.
    apply slice_from_last.
    pose proof (indexOf_lower_bound message CLOSING_TAG).
    change (Z.of_nat (String.length CLOSING_TAG)) with 7%Z. lia. }
  split; [|split].
  - rewrite Hhtml.
    destruct (_ && _); [apply substring_at_most|cbn; lia].
  - rewrite Hhtml. destruct (_ && _); auto.
  - intros e He. rewrite Hhtml, (indexOf_found _ _ _ He).
    change (String.length CLOSING_TAG) with 7.
    split; intros Hlen.
    + destruct (Z.leb_spec (Z.of_nat (String.length message))
                  (Z.of_nat e + 7)); [lia|reflexivity].
    + destruct (Z.leb_spec (Z.of_nat (String.length message))
                  (Z.of_nat e + 7)); [|lia].
      destruct (Nat.leb_spec 1 (String.length message)); [|lia].
      cbn [andb].
      replace (String.length message - 1) with (e + 6) by lia.
      rewrite <- (substring_substring message e 7 6 1) by lia.
      change 7 with (String.length CLOSING_TAG).
      rewrite (String.index_correct1 _ _ _ _ He). reflexivity.
Qed.

(** X13.  A first choice with the doctype marker at position [s] and no
    closing tag yields the first [6 - s] characters of the marker: a piece
    of ["<!DOCT"] when the marker starts within the first six characters,
    and nothing when it starts later.  It never yields the document. *)
Theorem extraction_without_closing_tag (message : string) (s : nat) :
  String.index 0 DOCTYPE message = Some s ->
  String.index 0 CLOSING_TAG message = None ->
  extractHtml message = String.substring 0 (6 - s) DOCTYPE /\
  String.length (extractHtml message) <= 6.
Proof.
  intros Hs Hnone.
  assert (extractHtml message = String.substring 0 (6 - s) DOCTYPE) as Hhtml.
  { unfold extractHtml. rewrite (indexOf_found _ _ _ Hs).
    unfold Js.indexOf. rewrite Hnone.
    change (-1 + Z.of_nat (String.length CLOSING_TAG))%Z with (Z.of_nat 6).
    pose proof (index_bound _ _ _ _ DOCTYPE_nonempty Hs) as Hlen.
    change (String.length DOCTYPE) with 15 in Hlen.
    destruct (Nat.le_gt_cases s 6) as [Hle|Hgt].
    - rewrite slice_inside by lia.
      transitivity
        (String.substring 0 (6 - s)
           (String.substring s (String.length DOCTYPE) message)).
      + rewrite substring_substring
          by (change (String.length DOCTYPE) with 15; lia).
        rewrite Nat.add_0_r. reflexivity.
      + rewrite (String.index_correct1 _ _ _ _ Hs). reflexivity.
    - rewrite slice_crossed by lia.
      replace (6 - s) with 0 by lia. reflexivity. }
  split; [assumption|]. rewrite Hhtml.
  pose proof (substring_at_most DOCTYPE 0 (6 - s)). lia.
Qed.

(** X14.  A first choice whose first closing tag comes before its first
    doctype marker yields the empty string, however complete the document
    that follows. *)
Theorem extraction_closing_tag_first (message : string) (s e : nat) :
  String.index 0 DOCTYPE message = Some s ->
  String.index 0 CLOSING_TAG message = Some e ->
  e < s ->
  extractHtml message = "" /\ e + String.length CLOSING_TAG <= s.
Proof.
  intros Hs He Hlt. split; [exact (extractHtml_crossed message s e Hs He Hlt)|].
  apply (markers_disjoint message); eauto using String.index_correct1.
Qed.

End Malformed.

Lemma extraction_without_doctype_witness :
  extractHtml Fixtures.beheaded = ">" /\
  extractHtml "I cannot help with that." = "".
Proof.
  split.
  - exact (proj2 (proj2 (proj2 (extraction_without_doctype Fixtures.beheaded
             eq_refl)) 13%nat eq_refl) eq_refl).
  - destruct (extraction_without_doctype "I cannot help with that." eq_refl)
      as (_ & [Hempty|Hlast] & _); [exact Hempty|].
    vm_compute in Hlast. discriminate Hlast.
Defined.

Lemma extraction_without_closing_tag_witness :
  extractHtml Fixtures.truncated = "<!D".
Proof.
  exact (proj1 (extraction_without_closing_tag Fixtures.truncated 3
                  eq_refl eq_refl)).
Defined.

Lemma extraction_closing_tag_first_witness :
  extractHtml "done</html> <!DOCTYPE html><html></html>" = "".
Proof.
  exact (proj1 (extraction_closing_tag_first
                  "done</html> <!DOCTYPE html><html></html>" 12 4
                  eq_refl eq_refl ltac:(lia))).
Defined.

(** ** The gathered text, when there is none *)

(** X15.  The gathered text is the empty string exactly when no descendant
    of the selection is a shape of an allow-listed kind with a non-empty
    text. *)
Theorem gathered_text_empty_iff (host : Host) (editor : Editor) :
  getSelectionAsText host editor = "" <->
  gatheredEntries editor
    (getShapeAndDescendantIds host editor (getSelectedShapeIds editor)) = [].
Proof.
  unfold getSelectionAsText, Js.join. rewrite texts_are_entries.
  pose proof (entries_nonempty editor
                (getShapeAndDescendantIds host editor
                   (getSelectedShapeIds editor))) as Hne.
  destruct (gatheredEntries editor _) as [|entry entries]; [tauto|].
  split; [|discriminate].
  apply Forall_cons in Hne as [Hentry _].
  destruct entry as [|c entry]; [congruence|].
  destruct entries; discriminate.
Qed.

(** ** The further properties on concrete canvases *)

Lemma failed_invocation_restores_canvas_witness :
  canvas (invoke (Fixtures.hostReplying (Rejects Fixtures.offline))
            Fixtures.sketch).2 = Fixtures.sketch.
Proof.
  exact (failed_invocation_restores_canvas
           (Fixtures.hostReplying (Rejects Fixtures.offline)) Fixtures.sketch
           Fixtures.offline eq_refl eq_refl).
Defined.

Lemma successful_invocation_adds_one_shape_witness :
  size (store (canvas (invoke (Fixtures.hostReplying (Resolves Fixtures.page))
                         Fixtures.sketch).2)) = 8%nat.
Proof.
  destruct (successful_invocation_adds_one_shape
              (Fixtures.hostReplying (Resolves Fixtures.page)) Fixtures.sketch
              eq_refl eq_refl)
    as (_ & _ & _ & _ & _ & _ & _ & _ & _ & Hsize).
  rewrite Hsize. reflexivity.
Defined.

Lemma any_content_is_committed_witness :
  (invoke (Fixtures.hostReplying (Resolves Fixtures.refusal))
     Fixtures.sketch).1 = Normal tt.
Proof.
  exact (proj1 (any_content_is_committed
           (Fixtures.hostReplying (Resolves Fixtures.refusal)) Fixtures.sketch
           None
           (completionRequest
              (promptWith (Fixtures.hostReplying (Resolves Fixtures.refusal))
                 Fixtures.sketch None))
           Fixtures.refusal
           {| choice_message :=
                {| message_content := "I cannot help with that." |} |} []
           ltac:(apply list_elem_of_further, list_elem_of_here)
           eq_refl eq_refl)).
Defined.

Lemma empty_choices_roll_back_witness :
  (invoke (Fixtures.hostReplying (Resolves Fixtures.noChoice))
     Fixtures.sketch).1 = Throw JsTypeError.
Proof.
  exact (proj1 (empty_choices_roll_back
           (Fixtures.hostReplying (Resolves Fixtures.noChoice)) Fixtures.sketch
           None
           (completionRequest
              (promptWith (Fixtures.hostReplying (Resolves Fixtures.noChoice))
                 Fixtures.sketch None))
           Fixtures.noChoice
           ltac:(apply list_elem_of_further, list_elem_of_here)
           eq_refl eq_refl)).
Defined.

Lemma selection_reads_unchanged_witness :
  getContentOfPreviousResponse
    (canvas (invoke (Fixtures.hostReplying (Resolves Fixtures.page))
               Fixtures.iteration).2)
  = Normal (Some "<!DOCTYPE html><html>v1</html>").
Proof.
  rewrite (proj2 (selection_reads_unchanged
             (Fixtures.hostReplying (Resolves Fixtures.page))
             Fixtures.iteration
             ltac:(cbn; rewrite !elem_of_cons, elem_of_nil;
                   intros [H|[H|[H|[]]]]; discriminate H))).
  reflexivity.
Defined.

Lemma committed_html_is_next_prior_witness :
  getContentOfPreviousResponse
    {| store :=
         store (canvas (invoke (Fixtures.hostReplying (Resolves Fixtures.page))
                          Fixtures.sketch).2);
       selectedShapeIds := ["shape:new"] |}
  = Normal (Some "<!DOCTYPE html><html></html>").
Proof.
  exact (proj1 (committed_html_is_next_prior
           (Fixtures.hostReplying (Resolves Fixtures.page)) Fixtures.sketch
           {| store :=
                store (canvas (invoke
                                 (Fixtures.hostReplying (Resolves Fixtures.page))
                                 Fixtures.sketch).2);
              selectedShapeIds := ["shape:new"] |}
           None
           (completionRequest
              (promptWith (Fixtures.hostReplying (Resolves Fixtures.page))
                 Fixtures.sketch None))
           Fixtures.page
           {| choice_message :=
                {| message_content :=
                     "Here you go: <!DOCTYPE html><html></html> Enjoy!" |} |}
           []
           ltac:(apply list_elem_of_further, list_elem_of_here)
           eq_refl eq_refl eq_refl eq_refl)).
Defined.

(** ** A call that fails at the transport *)

(** X16.  When the remote call of an invocation rejects with [e], the
    invocation throws that same [e]; its last effect is the deletion of the
    placeholder, nothing was committed and no shape remains under the new
    identifier. *)
Theorem rejected_call_is_rethrown (host : Host) (editor : Editor)
    (apiKey : option string) (request : CompletionRequest) (e : Thrown) :
  EvFetch apiKey request (Rejects e) ∈ log (invoke host editor).2 ->
  (invoke host editor).1 = Throw e /\
  last (log (invoke host editor).2) = Some (EvDeleteShape (createShapeId host)) /\
  getShape (canvas (invoke host editor).2) (createShapeId host) = None /\
  (forall update, EvUpdateShape update ∉ log (invoke host editor).2).
Proof.
  intros Hcall.
  run_cases host editor; try (apply elem_of_nil in Hcall; contradiction).
  - apply fetch_in_log in Hcall as (_ & _ & Hresult); [|reflexivity].
    match goal with H : RaisedInTry _ _ |- _ =>
      rewrite <- Hresult in H; inversion H; subst end.
    split; [reflexivity|]. split; [reflexivity|]. split.
    + unfold getShape. rewrite deleted_after_created. apply lookup_delete_eq.
    + intros update. rewrite !elem_of_cons, elem_of_nil.
      intros [H'|[H'|[H'|[]]]]; discriminate.
  - apply fetch_in_log in Hcall as (_ & _ & Hresult); [|reflexivity].
    discriminate.
Qed.

Lemma rejected_call_is_rethrown_witness :
  (invoke (Fixtures.hostReplying (Rejects Fixtures.offline))
     Fixtures.iteration).1 = Throw (Rejection "fetch failed").
Proof.
  exact (proj1 (rejected_call_is_rethrown
           (Fixtures.hostReplying (Rejects Fixtures.offline))
           Fixtures.iteration None
           (completionRequest
              (promptWith (Fixtures.hostReplying (Rejects Fixtures.offline))
                 Fixtures.iteration
                 (Some "<!DOCTYPE html><html>v1</html>")))
           Fixtures.offline
           ltac:(apply list_elem_of_further, list_elem_of_here))).
Defined.
